(* ===== verification/_CoqProject ===== *)
-Q . S2P
Prelude.v
JsRuntime.v
Regex.v
DataUrl.v
Decimal.v
Http.v
FileApi.v
Controller.v
Session.v
Spec.v
Refinement.v
