(* ===== verification/Prelude.v ===== *)
(** * File Transformation client: a verified model of the React front end

    ** The program

    The repository's front end (src/React_Frontend/src) is a single-page
    client that uploads an image to a conversion service and downloads
    the result.  It has two parts.
    - [api/fileApi.ts]: the HTTP client.  [checkHealth] sends GET /health
      and reports [status === 200]; [transformImage] sends POST
      /transform?to=<format> with a multipart part [file] and
      [responseType: 'blob'], and names the result from the
      Content-Disposition header with /filename="(.+)"/, falling back to
      converted.<format>.
    - [App.tsx]: one React component.  Its [useState] hooks hold the whole
      session (selected file, preview, target format, status, error
      message, converted blob and filename, backend health, drag flag; the
      ref [fileInputRef]); its handlers change them; its render decides
      what is shown and which controls are enabled.  It calls the client
      on mount ([checkBackendHealth]) and on convert, reads files with a
      [FileReader], and saves results through object URLs and a clicked
      anchor.

    ** The library (files in dependency order)

    - [Prelude] (this file): the [+++] notation for JavaScript string
      concatenation in [ft_scope], string, substring and option lemmas,
      the three-at-a-time list induction [list_ind3], the [ft] hint
      database (the component files add to it), the [ft_rw] rewrite
      database used by the [str_simpl] tactic, and [n_divmod] for [N]
      arithmetic with division and remainder by constants.
    - [JsRuntime]: the language and Web API fragment the code relies on,
      from the ECMAScript/File API specifications (not repository code):
      [Blob], [File], dynamically typed values [JsVal] with ToBoolean and
      [||], [startsWith], [toUpperCase], [Number.prototype.toFixed(2)]
      ([to_fixed2], steps 10-11 of the algorithm), [readAsDataURL]
      (base64).
    - [Regex]: the RegExp fragment of the filename pattern: a
      continuation-passing backtracking matcher [match_re] with greedy [+]
      and capture groups, [regexp_exec] trying every start index, the
      pattern [filename_re], and a direct scanner [find_filename] proved
      equal to the engine's group 1 ([exec_filename_group]) and
      characterised ([find_filename_shape]).
    - [DataUrl]: the inverse of [readAsDataURL], as a browser reads the
      preview's [src]: a base64 decoder and a [data:] URL parser, with the
      round trip [parse_data_url_data_url].
    - [Decimal]: reading the panel's size line back as a decimal with two
      fraction digits ([fixed2_value]), and the proof that the text
      [toFixed] writes reads back as its number ([fixed2_value_digits]).
    - [Http]: axios as the code uses it (library, not repository code):
      requests, responses with the lower-cased header map (stdpp [gmap]),
      the default [validateStatus] and the rejection value ([axios_settle]).
    - [FileApi]: [fileApi.ts]: [checkHealth], [transformImage] and their
      requests, [content_disposition_filename]; the client boundary as the
      class [ApiClient] with its promises [ApiClientSpec], discharged for
      the instance [fileApi] ([fileApi_spec]).
    - [Controller]: [App.tsx]: the state record [AppState] with one setter
      per hook, every handler (async handlers split at their [await]: the
      synchronous part records a [Pending] completion holding the values its
      closure captured), the render ([render], with render failure as
      [None]), React's commit of the ref ([commit_refs]), the browser
      objects a download touches ([Browser]), and the page as a whole
      ([World]) with its events ([Event]) and one-step semantics [step]:
      a user event needs the element it targets rendered and enabled; a
      completion in flight can be delivered in any order; a render that
      throws unmounts the tree ([crashed]).  All of it is written in
      Sections over [ApiClient].
    - [Session]: runs and reachability ([run], [reachable]), the invariant
      of every reachable page, proved by rule induction against
      [ApiClientSpec] only, the request log counted per run and its
      typing ([typed]), liveness of a conversion, and the pages and test
      files at which the theorems are instantiated with [fileApi].
    - [Spec]: the abstract session of the specification's section 4
      ([AbstractSession.abs_step]) and its data-model invariant.
    - [Refinement]: the abstraction [abs_of] of a page, the refinement
      theorem, and why its proviso is needed.

    ** What is proved

    - The client: [checkHealth] is true exactly on status 200
      ([checkHealth_settle]); [transformImage]'s result on every outcome
      ([transformImage_result]); the derived filename on every header of
      the form pre filename="body"post ([derived_filename_shape]), which
      rests on the equivalence of the RegExp engine with the direct
      scanner ([filename_regex_equiv]); every derived name is non-empty
      and free of line breaks ([derived_filename_wellformed]).
    - The handlers ([Controller]): the acceptance check and its single
      path for picker and drop ([pick_rejects_non_image],
      [pick_drop_same]), the guard and effect of a convert click
      ([convert_click]), the two outcomes of a
      conversion ([convert_settled_ok], [convert_settled_err],
      [conversion_error_message_settle]), reset ([reset_clears]) and
      download, which saves the blob and releases its URL and anchor
      ([download_saves]); the preview is the picked file, read back byte
      for byte from its [data:] URL ([preview_shows_file]); the size line
      reads back as the size in KB rounded to the nearest hundredth
      ([file_size_text_rounding]); a rejected file cannot be picked again
      straight away ([repick_rejected_ignored]).
    - Sessions: the invariant of all reachable pages under every
      interleaving ([reachable_inv]); after any run from the mount the
      request log is the one health check followed by exactly one
      transform request per convert click of the run ([requests_sent]),
      and each of them is [GET /health] or a [POST /transform?to=png|jpg]
      whose one part [file] is an image ([sent_requests_wire]); a
      conversion can always be completed from a page that offers it
      ([conversion_completes]); failures are never sticky
      ([retry_after_error]).
    - Refinement: each step is an abstract step or a stutter when
      conversions are delivered while converting ([controller_refines]);
      on every page where that proviso fails (idle or error with a
      conversion in flight) a successful delivery makes a change no
      abstract rule allows ([stale_delivery_escapes]).
    - Where the code departs from the specification, for every page and
      input where it happens: 2xx other than 200 is unhealthy
      ([checkHealth_settle]); the greedy pattern runs to the last quote of
      the line ([derived_filename_shape]); conversions and previews are
      delivered whatever is selected by then ([convert_settled_ok],
      [preview_shows_file], [stale_delivery_escapes]); the validation
      error is never rendered ([validation_error_not_rendered]); any
      non-2xx answer with a body crashes the page
      ([server_error_crashes]); the download label follows the format
      buttons ([download_label_mismatch]).  The [Example]s of [FileApi]
      show these on concrete headers.

    ** Bounds and termination

    No fuel is used: every recursive function is structural (the matcher
    on the regex and, for greedy [+], on the remaining string; the scanner
    and [exec_from] on the string; [run] on the event list; [base64] and
    [base64_decode] on the bytes and characters, three and four at a
    time), so every definition is total and evaluates with [vm_compute].
    Integers are unbounded [nat] and [N]: statuses are only compared, and
    the one computation on a size, [(size / 1024).toFixed(2)], is exact in
    JavaScript (a file size is an integer below [2^53], and a division by a
    power of two is exact), so [to_fixed2] computes on the exact rational
    [size / 1024].  Its exponent-form branch for values of at least
    [10^21] is not modelled; [size / 1024 < 2^43] never reaches it.

    ** Not modelled

    Presentation (static text, icons, CSS classes other than
    [dragging]), the upload area's [onClick], which only opens the file
    dialog whose outcome is the [EvPick] event, the console logging of [checkHealth],
    the internals of axios, the browser and React beyond the behaviour
    written in [Http], [JsRuntime] and [Controller] ([after_render],
    [click], object URLs), and the Go service, whose only contract is the
    [NetResult] the environment delivers.  File read errors are modelled
    as the load event never arriving.  Characters are ASCII: the only line
    terminators of [.] are line feed and carriage return.  The picker's
    [change] rule compares the input's value, [C:\fakepath\] followed by
    the file name, so two different files with the same name count as the
    same selection.

    ** Plan for later work

    A version of the controller with the stale-state guard of the
    specification's section 9 (a generation token per completion), proved
    to refine the abstract session without the timeliness proviso.  (The
    entry point [main.tsx], where a StrictMode double mount would be
    decided, is not part of this snapshot.) *)

From stdpp Require Import base list strings options.
From Stdlib Require Import String Ascii NArith ZArith Lia.

Declare Scope ft_scope.
Delimit Scope ft_scope with ft.
Open Scope string_scope.

(** JavaScript string concatenation ([a + b], template literals). *)
Notation "a +++ b" := (String.append a b)
  (at level 60, right associativity) : ft_scope.
Open Scope ft_scope.

#[export] Instance byte_eq_decision : EqDecision Byte.byte := Byte.byte_eq_dec.

Create HintDb ft.
Create Rewrite HintDb ft_rw.

(** ** Strings *)

(** stdpp makes [String.append] opaque to [simpl]; these are its two
    defining equations, used by rewriting instead. *)
Lemma str_app_nil_l (s : string) : "" +++ s = s.
Proof. reflexivity. Qed.

Lemma str_app_cons (c : ascii) (a b : string) :
  String c a +++ b = String c (a +++ b).
Proof. reflexivity. Qed.

Lemma str_app_nil_r (s : string) : s +++ "" = s.
Proof. induction s as [|c s IH]; [done | by rewrite str_app_cons, IH]. Qed.

Lemma str_app_assoc (a b c : string) : (a +++ b) +++ c = a +++ (b +++ c).
Proof. induction a as [|x a IH]; [done | by rewrite !str_app_cons, IH]. Qed.

Lemma str_length_app (a b : string) :
  String.length (a +++ b) = String.length a + String.length b.
Proof. induction a as [|x a IH]; [done | rewrite str_app_cons; simpl; now rewrite IH]. Qed.

#[export] Hint Rewrite str_app_nil_l str_app_cons str_app_nil_r str_app_assoc str_length_app : ft_rw.


(** ** Options *)

Lemma bind_Some {A B} (x : A) (f : A -> option B) : Some x ≫= f = f x.
Proof. done. Qed.

Lemma bind_None {A B} (f : A -> option B) : None ≫= f = None.
Proof. done. Qed.

#[export] Hint Rewrite @bind_Some @bind_None : ft_rw.

(** ** Lists in groups of three *)

(** The recursion scheme of an encoder that consumes three bytes at a
    time ([base64]); a one- or two-element tail is the padded case. *)
Lemma list_ind3 {A} (P : list A -> Prop) :
  P [] -> (forall a, P [a]) -> (forall a b, P [a; b]) ->
  (forall a b c l, P l -> P (a :: b :: c :: l)) -> forall l, P l.
Proof.
  intros H0 H1 H2 H3. fix IH 1.
  intros [|a [|b [|c l]]]; [exact H0 | apply H1 | apply H2 | apply H3, IH].
Qed.

(** ** Tactics *)

(** Goals of linear arithmetic on [N] with division and remainder by
    constants: move to [Z], turn [/] and [mod] into their defining
    equations and call [lia]. *)
Ltac n_divmod :=
  repeat match goal with
  | H : (_ < _)%N |- _ => apply N2Z.inj_lt in H
  | H : (_ <= _)%N |- _ => apply N2Z.inj_le in H
  | |- (_ = _)%N => apply N2Z.inj
  | |- (_ < _)%N => apply N2Z.inj_lt
  | |- (_ <= _)%N => apply N2Z.inj_le
  end;
  repeat rewrite ?N2Z.inj_add, ?N2Z.inj_mul, ?N2Z.inj_div, ?N2Z.inj_mod in *;
  simpl Z.of_N in *; Z.div_mod_to_equations; lia.

(** Normalise string concatenations and option binds with [ft_rw]. *)
Ltac str_simpl := autorewrite with ft_rw.

(** ** Character predicates over strings *)

Fixpoint str_forall (P : ascii -> bool) (s : string) : bool :=
  match s with
  | EmptyString => true
  | String c s' => P c && str_forall P s'
  end.


Lemma str_forall_app P a b :
  str_forall P (a +++ b) = str_forall P a && str_forall P b.
Proof.
  induction a as [|c a IH]; [done |].
  rewrite str_app_cons; simpl. by rewrite IH, andb_assoc.
Qed.

#[export] Hint Rewrite str_forall_app : ft_rw.

Lemma str_forall_impl (P Q : ascii -> bool) s :
  (forall c, P c = true -> Q c = true) -> str_forall P s = true -> str_forall Q s = true.
Proof.
  intros H. induction s as [|c s IH]; [done |]. simpl.
  intros [Hc Hs]%andb_prop. by rewrite H, IH.
Qed.

(** ** Substrings *)

Lemma substring_length i j s :
  i + j <= String.length s -> String.length (substring i j s) = j.
Proof.
  revert i j; induction s as [|c s IH]; intros [|i] [|j] H; simpl in *; try lia; auto with lia.
Qed.

Lemma substring_full s : substring 0 (String.length s) s = s.
Proof. induction s as [|c s IH]; simpl; [done | by rewrite IH]. Qed.

Lemma substring_split j s :
  j <= String.length s ->
  substring 0 j s +++ substring j (String.length s - j) s = s.
Proof.
  revert j; induction s as [|c s IH]; intros [|j] H; simpl in *; try lia.
  - done.
  - rewrite str_app_nil_l. f_equal. apply substring_full.
  - rewrite str_app_cons. f_equal. apply IH. lia.
Qed.

Lemma str_forall_substring P i j s :
  str_forall P s = true -> str_forall P (substring i j s) = true.
Proof.
  revert i j; induction s as [|c s IH]; intros [|i] [|j]; simpl; try done.
  - intros [Hc Hs]%andb_prop. rewrite Hc. simpl. auto.
  - intros [_ Hs]%andb_prop. auto.
  - intros [_ Hs]%andb_prop. auto.
Qed.
