(* ===== verification/JsRuntime.v ===== *)
(** * The JavaScript and Web platform fragment the front end relies on

    Not code of the repository: the behaviour of the language and browser
    APIs that [App.tsx] and [fileApi.ts] call, written from the ECMAScript
    and File API specifications so that the component files can be
    faithful to the source.  It holds
    - [Blob] and [File] (a [File] is a [Blob] with a name; its [size] is the
      byte length and its [type] the declared media type);
    - dynamically typed values [JsVal] with ToBoolean ([truthy]) and the
      short-circuit [||] ([js_or]), used by the error-message expression
      and by the rendering of that message;
    - [String.prototype.startsWith], [toUpperCase] and the line
      terminators of regular expressions;
    - [Number.prototype.toFixed(2)] on an exact non-negative rational,
      as used for the size line of the panel;
    - [FileReader.readAsDataURL]'s result: a [data:] URL with the base64
      encoding of the bytes. *)

From stdpp Require Import base list strings options pretty.
From Stdlib Require Import String Ascii NArith.
From S2P Require Import Prelude.

Open Scope string_scope.
Open Scope ft_scope.

(** ** Blobs and files *)

Record Blob := mkBlob {
  blob_bytes : list Byte.byte;
  blob_type : string
}.

Record File := mkFile {
  file_name : string;
  file_type : string;
  file_bytes : list Byte.byte
}.

(** [File.size]: the number of bytes. *)
Definition file_size (f : File) : nat := List.length (file_bytes f).

(** [FormData.append('file', file)] sends the file's bytes as a Blob part. *)
Definition file_blob (f : File) : Blob := mkBlob (file_bytes f) (file_type f).

#[export] Instance Blob_eq_dec : EqDecision Blob.
Proof. solve_decision. Defined.
#[export] Instance File_eq_dec : EqDecision File.
Proof. solve_decision. Defined.

(** ** Dynamically typed values *)

(** The values that flow through [error.response?.data || error.message ||
    'Conversion failed'] and into [errorMessage]: [undefined], strings and
    Blob objects. *)
Inductive JsVal :=
| JUndefined
| JStr (s : string)
| JBlob (b : Blob).

#[export] Instance JsVal_eq_dec : EqDecision JsVal.
Proof. solve_decision. Defined.

(** ToBoolean: [undefined] and [""] are falsy, every object is truthy. *)
Definition truthy (v : JsVal) : bool :=
  match v with
  | JUndefined => false
  | JStr s => negb (String.eqb s "")
  | JBlob _ => true
  end.

(** [a || b]: [a] when [a] is truthy, else [b]. *)
Definition js_or (a b : JsVal) : JsVal := if truthy a then a else b.

(** [o?.f]: [undefined] when [o] is absent. *)
Definition opt_chain {A} (o : option A) (f : A -> JsVal) : JsVal :=
  match o with Some a => f a | None => JUndefined end.

(** ** Strings *)

(** [s.startsWith(p)]. *)
Definition starts_with (s p : string) : bool := String.prefix p s.

(** [LineTerminator] of a regular expression's [.], on the ASCII range:
    line feed and carriage return. *)
Definition is_line_terminator (c : ascii) : bool :=
  (Ascii.eqb c "010"%char || Ascii.eqb c "013"%char)%bool.

(** [toUpperCase] on the ASCII range. *)
Definition ascii_upper (c : ascii) : ascii :=
  let n := Ascii.nat_of_ascii c in
  if Nat.leb 97 n && Nat.leb n 122 then Ascii.ascii_of_nat (n - 32) else c.

Fixpoint to_upper_case (s : string) : string :=
  match s with
  | EmptyString => EmptyString
  | String c s' => String (ascii_upper c) (to_upper_case s')
  end.

(** ** Number.prototype.toFixed(2) *)

(** [k] zeros. *)
Fixpoint zeros (k : nat) : string :=
  match k with 0 => "" | S k => String "0" (zeros k) end.

(** Steps 10-11 of [toFixed] for two fraction digits: the decimal digits
    of the integer [n] (at least three, zero padded on the left) with a
    point before the last two. *)
Definition to_fixed2_digits (n : N) : string :=
  let m := if (n =? 0)%N then "0" else pretty n in
  let m := if Nat.leb (String.length m) 2 then zeros (3 - String.length m) +++ m else m in
  let k := String.length m in
  substring 0 (k - 2) m +++ "." +++ substring (k - 2) 2 m.

(** Step 10's [n] for the exact value [p / q] ([q > 0]): the integer for
    which [n / 100 - p / q] is closest to zero, the larger of two on a tie. *)
Definition to_fixed2_n (p q : N) : N := ((200 * p + q) / (2 * q))%N.

(** [(p / q).toFixed(2)] for [0 <= p / q < 10^21]; larger values are
    written in exponent form by [Number::toString] and are not modelled
    (a file size divided by 1024 stays below [2^43]). *)
Definition to_fixed2 (p q : N) : string := to_fixed2_digits (to_fixed2_n p q).

(** ** FileReader.readAsDataURL *)

Definition b64_char (n : N) : ascii :=
  if (n <? 26)%N then Ascii.ascii_of_N (65 + n)
  else if (n <? 52)%N then Ascii.ascii_of_N (71 + n)
  else if (n <? 62)%N then Ascii.ascii_of_N (n - 4)
  else if (n =? 62)%N then "+"%char else "/"%char.

(** The four characters of a 24-bit group. *)
Definition b64_quad (n : N) : string :=
  String (b64_char (N.shiftr n 18))
    (String (b64_char (N.land (N.shiftr n 12) 63))
      (String (b64_char (N.land (N.shiftr n 6) 63))
        (String (b64_char (N.land n 63)) EmptyString))).

Fixpoint base64 (l : list Byte.byte) : string :=
  match l with
  | b1 :: b2 :: b3 :: rest =>
      b64_quad (Byte.to_N b1 * 65536 + Byte.to_N b2 * 256 + Byte.to_N b3)%N
        +++ base64 rest
  | [b1; b2] =>
      substring 0 3 (b64_quad (Byte.to_N b1 * 65536 + Byte.to_N b2 * 256)%N) +++ "="
  | [b1] => substring 0 2 (b64_quad (Byte.to_N b1 * 65536)%N) +++ "=="
  | [] => ""
  end.

(** The result of [reader.readAsDataURL(file)]; a file with no declared type
    is read as [application/octet-stream]. *)
Definition data_url (f : File) : string :=
  "data:" +++ (if String.eqb (file_type f) "" then "application/octet-stream"
               else file_type f) +++ ";base64," +++ base64 (file_bytes f).

(** ** Facts used by the component files *)

Lemma truthy_js_or_l a b : truthy a = true -> js_or a b = a.
Proof. unfold js_or. by intros ->. Qed.

Lemma truthy_js_or_r a b : truthy a = false -> js_or a b = b.
Proof. unfold js_or. by intros ->. Qed.

#[export] Hint Rewrite truthy_js_or_l truthy_js_or_r using reflexivity : ft_rw.

Example to_fixed2_samples :
  map (fun p => to_fixed2 p 1024) [0; 5; 6; 1023; 1536; 2048000]%N =
  ["0.00"; "0.00"; "0.01"; "1.00"; "1.50"; "2000.00"].
Proof. vm_compute. reflexivity. Qed.

Example base64_man : base64 (list_byte_of_string "Man") = "TWFu".
Proof. reflexivity. Qed.

Example base64_pad : base64 (list_byte_of_string "Ma") = "TWE=".
Proof. reflexivity. Qed.
