(* ===== verification/Regex.v ===== *)
(** * The regular-expression fragment used by [fileApi.ts]

    [fileApi.transformImage] extracts the output filename with
    [contentDisposition.match(/filename="(.+)"/)] and reads group 1.  This
    file models that call from the ECMAScript RegExp semantics (not code of
    the repository): a backtracking matcher in continuation-passing style
    over literal characters, [.], a capturing group and a greedy [+] on one
    atom ([match_re]), and [String.prototype.match] for a non-global
    pattern, which tries every start index from 0 up to the length
    ([regexp_exec]).

    It then gives a direct scanner for the one pattern of the program,
    [find_filename], and proves it equal to the engine's group 1
    ([filename_regex_equiv], in [FileApi]), so that the properties of
    filename derivation can be read off the scanner. *)

From stdpp Require Import base list strings options.
From Stdlib Require Import String Ascii.
From S2P Require Import Prelude JsRuntime.

Open Scope string_scope.
Open Scope ft_scope.

(** ** Syntax *)

Inductive atom :=
| AChar (c : ascii)   (** a literal character *)
| ADot.               (** [.]: any character but a line terminator *)

Definition atom_matches (a : atom) (c : ascii) : bool :=
  match a with
  | AChar d => Ascii.eqb c d
  | ADot => negb (is_line_terminator c)
  end.

Inductive regex :=
| RAtom (a : atom)
| RSeq (r1 r2 : regex)
| RGroup (i : nat) (r : regex)   (** capturing group number [i] *)
| RPlus (a : atom).              (** greedy [a+] *)

(** A literal string followed by [r]. *)
Fixpoint lit (p : string) (r : regex) : regex :=
  match p with
  | EmptyString => r
  | String c p' => RSeq (RAtom (AChar c)) (lit p' r)
  end.

(** ** Backtracking semantics *)

Definition captures := list (nat * string).

(** The text matched between the positions of [s] and of its suffix [s']. *)
Definition consumed (s s' : string) : string :=
  substring 0 (String.length s - String.length s') s.

Section Matcher.
Context {A : Type}.

(** Greedy [a*]: take one more character while [a] matches, and fall
    back to the continuation at the current position when the longer
    match fails. *)
Fixpoint star_atom (a : atom) (s : string) (cs : captures)
    (k : string -> captures -> option A) : option A :=
  match s with
  | EmptyString => k s cs
  | String c s' =>
      if atom_matches a c then
        match star_atom a s' cs k with
        | Some x => Some x
        | None => k s cs
        end
      else k s cs
  end.

Fixpoint match_re (r : regex) (s : string) (cs : captures)
    (k : string -> captures -> option A) : option A :=
  match r with
  | RAtom a =>
      match s with
      | String c s' => if atom_matches a c then k s' cs else None
      | EmptyString => None
      end
  | RSeq r1 r2 => match_re r1 s cs (fun s' cs' => match_re r2 s' cs' k)
  | RGroup i r1 =>
      match_re r1 s cs (fun s' cs' => k s' ((i, consumed s s') :: cs'))
  | RPlus a =>
      match s with
      | String c s' => if atom_matches a c then star_atom a s' cs k else None
      | EmptyString => None
      end
  end.
End Matcher.

Record match_result := mkMatch {
  mr_index : nat;        (** [m.index] *)
  mr_match : string;     (** [m[0]] *)
  mr_groups : captures   (** [m[i]], most recent capture first *)
}.

(** [RegExpBuiltinExec] of a non-global pattern: try each start index. *)
Fixpoint exec_from (r : regex) (s : string) (i : nat) : option match_result :=
  match match_re r s [] (fun s' cs => Some (consumed s s', cs)) with
  | Some (m, cs) => Some (mkMatch i m cs)
  | None =>
      match s with
      | EmptyString => None
      | String _ s' => exec_from r s' (S i)
      end
  end.

(** [s.match(r)] for a pattern without the [g] flag. *)
Definition regexp_exec (r : regex) (s : string) : option match_result :=
  exec_from r s 0.

(** [m[i]]: [undefined] ([None]) when the group did not participate. *)
Fixpoint lookup_capture (i : nat) (cs : captures) : option string :=
  match cs with
  | [] => None
  | (j, v) :: cs' => if Nat.eqb i j then Some v else lookup_capture i cs'
  end.

Definition mr_group (m : match_result) (i : nat) : option string :=
  lookup_capture i (mr_groups m).

(** ** The pattern /filename="(.+)"/ *)

Definition quote : ascii := "034"%char.

(** The literal [filename=] followed by a double quote. *)
Definition filename_eq : string := "filename=" +++ String quote EmptyString.

Definition filename_re : regex :=
  lit filename_eq (RSeq (RGroup 1 (RPlus ADot)) (RAtom (AChar quote))).

(** ** A direct scanner for the pattern *)

Fixpoint strip_prefix (p s : string) : option string :=
  match p, s with
  | EmptyString, _ => Some s
  | String c p', String d s' => if Ascii.eqb c d then strip_prefix p' s' else None
  | String _ _, EmptyString => None
  end.

(** The suffix of [t] that starts at the last quote of the leading run of
    [t] free of line terminators. *)
Fixpoint dotrun_rest (t : string) : option string :=
  match t with
  | EmptyString => None
  | String c t' =>
      if is_line_terminator c then None
      else match dotrun_rest t' with
           | Some r => Some r
           | None => if Ascii.eqb c quote then Some t else None
           end
  end.

(** The text of [t] before that quote. *)
Fixpoint dotrun_quote (t : string) : option string :=
  match t with
  | EmptyString => None
  | String c t' =>
      if is_line_terminator c then None
      else match dotrun_quote t' with
           | Some p => Some (String c p)
           | None => if Ascii.eqb c quote then Some EmptyString else None
           end
  end.

(** The group [(.+)] and the closing quote at the start of [t]: at least
    one character, then as many as
    possible up to the last quote of the line. *)
Definition plus_quote (t : string) : option string :=
  match t with
  | EmptyString => None
  | String c t' => if is_line_terminator c then None else String c <$> dotrun_quote t'
  end.

(** The leftmost position where the literal [filename_eq] is followed by
    [plus_quote]. *)
Fixpoint find_filename (h : string) : option string :=
  match strip_prefix filename_eq h ≫= plus_quote with
  | Some n => Some n
  | None =>
      match h with
      | EmptyString => None
      | String _ h' => find_filename h'
      end
  end.

(** ** The engine on the pieces of the pattern *)

Lemma match_re_lit {A} p r s cs (k : string -> captures -> option A) :
  match_re (lit p r) s cs k =
  match strip_prefix p s with Some s' => match_re r s' cs k | None => None end.
Proof.
  revert s; induction p as [|c p IH]; intros s; [done |].
  destruct s as [|d s]; simpl; [done |].
  rewrite Ascii.eqb_sym. destruct (Ascii.eqb c d); [apply IH | done].
Qed.

Lemma dotrun_rest_head t r :
  dotrun_rest t = Some r -> exists r', r = String quote r'.
Proof.
  induction t as [|c t IH]; simpl; [done |].
  destruct (is_line_terminator c); [done |].
  destruct (dotrun_rest t); [auto |].
  destruct (Ascii.eqb_spec c quote) as [->|]; [|done]. intros [= <-]. eauto.
Qed.

Lemma quote_not_line_terminator : is_line_terminator quote = false.
Proof. reflexivity. Qed.

(** Greedy [.*] followed by a continuation that succeeds exactly on the
    strings that start with a quote stops at the last quote of the line. *)
Lemma star_dot_quote {A} t cs (k : string -> captures -> option A) :
  (forall s', is_Some (k s' cs) <-> exists r', s' = String quote r') ->
  star_atom ADot t cs k =
  match dotrun_rest t with Some r => k r cs | None => None end.
Proof.
  intros Hk. induction t as [|c t IH]; simpl.
  - destruct (k "" cs) eqn:E; [|done].
    destruct (proj1 (Hk "") ltac:(eauto)) as [? ?]; done.
  - destruct (is_line_terminator c) eqn:Hlt; simpl.
    + destruct (k (String c t) cs) eqn:E; [|done].
      destruct (proj1 (Hk _) ltac:(eauto)) as [? [= -> _]].
      by rewrite quote_not_line_terminator in Hlt.
    + rewrite IH. destruct (dotrun_rest t) as [r|] eqn:Hr.
      * destruct (dotrun_rest_head _ _ Hr) as [r' ->].
        destruct (proj2 (Hk _) (ex_intro _ r' eq_refl)) as [x ->]. done.
      * destruct (Ascii.eqb_spec c quote) as [->|Hne]; [done |].
        destruct (k (String c t) cs) eqn:E; [|done].
        destruct (proj1 (Hk _) ltac:(eauto)) as [? [= ? _]]. done.
Qed.

Lemma substring_app_length (p r : string) :
  substring 0 (String.length p) (p +++ r) = p.
Proof.
  induction p as [|c p IH]; simpl; [by destruct r |]. by rewrite IH.
Qed.

Lemma consumed_app (p r : string) : consumed (p +++ r) r = p.
Proof.
  unfold consumed. rewrite str_length_app, Nat.add_sub.
  apply substring_app_length.
Qed.

Lemma dotrun_rest_quote t :
  match dotrun_rest t with
  | Some r => exists p, t = p +++ r /\ dotrun_quote t = Some p
  | None => dotrun_quote t = None
  end.
Proof.
  induction t as [|c t IH]; simpl; [done |].
  destruct (is_line_terminator c); [done |].
  destruct (dotrun_rest t) as [r|].
  - destruct IH as [p [-> ->]]. by exists (String c p).
  - rewrite IH. destruct (Ascii.eqb c quote); [|done]. by exists "".
Qed.

(** One attempt of the engine at a fixed start position: it succeeds with
    the single capture [plus_quote] exactly when the scanner does. *)
Lemma match_filename_re_at h :
  snd <$> match_re filename_re h [] (fun s' cs => Some (consumed h s', cs)) =
  (fun n => [(1, n)]) <$> (strip_prefix filename_eq h ≫= plus_quote).
Proof.
  unfold filename_re. rewrite match_re_lit.
  destruct (strip_prefix filename_eq h) as [t|]; [simpl | done].
  destruct t as [|c t']; [done |]. simpl.
  destruct (is_line_terminator c); [done |]. simpl.
  rewrite star_dot_quote.
  - pose proof (dotrun_rest_quote t') as Q.
    destruct (dotrun_rest t') as [r|] eqn:Hr; [| by rewrite Q].
    destruct (dotrun_rest_head _ _ Hr) as [r' ->].
    destruct Q as [p [-> ->]].
    simpl. by rewrite <- str_app_cons, consumed_app.
  - intros [|d s']; simpl.
    + split; [by intros [? ?] | by intros [? ?]].
    + destruct (Ascii.eqb_spec d quote) as [->|Hne]; split; eauto.
      * by intros [? ?].
      * by intros [r' [= ? _]].
Qed.

(** ** Equivalence of the scanner with the engine *)

Lemma exec_from_unfold r s i :
  exec_from r s i =
  match match_re r s [] (fun s' cs => Some (consumed s s', cs)) with
  | Some (m, cs) => Some (mkMatch i m cs)
  | None => match s with EmptyString => None | String _ s' => exec_from r s' (S i) end
  end.
Proof. by destruct s. Qed.

Lemma find_filename_unfold h :
  find_filename h =
  match strip_prefix filename_eq h ≫= plus_quote with
  | Some n => Some n
  | None => match h with EmptyString => None | String _ h' => find_filename h' end
  end.
Proof. by destruct h. Qed.

Lemma exec_filename_group h i :
  exec_from filename_re h i ≫= (fun m => mr_group m 1) = find_filename h.
Proof.
  revert i; induction h as [|c h IH]; intros i;
    rewrite exec_from_unfold, find_filename_unfold;
    [pose proof (match_filename_re_at EmptyString) as M
    |pose proof (match_filename_re_at (String c h)) as M];
    destruct (match_re filename_re _ [] _) as [[m cs]|];
    destruct (strip_prefix filename_eq _ ≫= plus_quote); simplify_eq/=; auto.
Qed.

(** ** What the scanner finds *)

(** A character the group [(.+)] may take without ending the match. *)
Definition line_char (c : ascii) : bool := negb (is_line_terminator c).

Definition not_quote (c : ascii) : bool := negb (Ascii.eqb c quote).

Lemma strip_prefix_app p s : strip_prefix p (p +++ s) = Some s.
Proof.
  induction p as [|c p IH]; [done |].
  rewrite str_app_cons; simpl. by rewrite Ascii.eqb_refl.
Qed.

Lemma strip_prefix_Some p s t : strip_prefix p s = Some t -> s = p +++ t.
Proof.
  revert s; induction p as [|c p IH]; intros [|d s]; simpl;
    try (by intros [= <-]); try (by intros [= ->]); try done.
  destruct (Ascii.eqb_spec c d) as [->|]; [|done].
  intros H. rewrite str_app_cons. f_equal. by apply IH.
Qed.

(** Index of the first quote. *)
Fixpoint quote_pos (s : string) : option nat :=
  match s with
  | EmptyString => None
  | String c s' => if Ascii.eqb c quote then Some 0 else S <$> quote_pos s'
  end.

Lemma quote_pos_app u v :
  str_forall not_quote u = true ->
  quote_pos (u +++ v) = (fun n => String.length u + n) <$> quote_pos v.
Proof.
  induction u as [|c u IH]; intros Hu.
  - str_simpl. by destruct (quote_pos v).
  - str_simpl; simpl in *. apply andb_prop in Hu as [Hc Hu].
    unfold not_quote in Hc. destruct (Ascii.eqb c quote); [done |].
    rewrite IH by done. by destruct (quote_pos v).
Qed.

(** No match can start inside a quote-free text placed before the literal. *)
Lemma strip_filename_eq_shifted c pre x :
  str_forall not_quote (String c pre) = true ->
  strip_prefix filename_eq (String c pre +++ filename_eq +++ x) = None.
Proof.
  intros Hpre. destruct (strip_prefix filename_eq _) as [t|] eqn:E; [|done].
  apply strip_prefix_Some in E.
  apply (f_equal quote_pos) in E.
  rewrite quote_pos_app in E by done.
  unfold filename_eq in E. rewrite str_app_assoc in E.
  rewrite !(quote_pos_app "filename=") in E by reflexivity.
  simpl in E. injection E. lia.
Qed.

Lemma dotrun_quote_app body post :
  str_forall line_char body = true -> dotrun_quote post = None ->
  dotrun_quote (body +++ String quote post) = Some body.
Proof.
  intros Hb Hp. induction body as [|c body IH].
  - rewrite str_app_nil_l; simpl. by rewrite Hp.
  - rewrite str_app_cons; simpl. simpl in Hb. apply andb_prop in Hb as [Hc Hb].
    unfold line_char in Hc. destruct (is_line_terminator c); [done |].
    by rewrite IH.
Qed.

Lemma plus_quote_app body post :
  body <> "" -> str_forall line_char body = true ->
  dotrun_quote post = None ->
  plus_quote (body +++ String quote post) = Some body.
Proof.
  intros Hne Hb Hp. destruct body as [|c body]; [done |].
  simpl in Hb. apply andb_prop in Hb as [Hc Hb]. unfold line_char in Hc.
  rewrite str_app_cons. simpl. destruct (is_line_terminator c); [done |].
  by rewrite dotrun_quote_app.
Qed.

(** The scanner's result on a header of the form
    [pre filename=" body " post]. *)
Lemma find_filename_shape pre body post :
  str_forall not_quote pre = true ->
  body <> "" -> str_forall line_char body = true ->
  dotrun_quote post = None ->
  find_filename (pre +++ filename_eq +++ body +++ String quote post) = Some body.
Proof.
  intros Hpre Hne Hb Hp. induction pre as [|c pre IH].
  - rewrite str_app_nil_l, find_filename_unfold, strip_prefix_app. str_simpl.
    by rewrite plus_quote_app.
  - rewrite str_app_cons, find_filename_unfold.
    rewrite <- str_app_cons, strip_filename_eq_shifted by done.
    apply IH. simpl in Hpre. by apply andb_prop in Hpre as [_ ?].
Qed.

(** ** Properties of the pattern *)

(** C16. Equivalence of the optimised scanner with the reference engine:
    on every string, group 1 of [s.match(/filename="(.+)"/)] as the
    backtracking RegExp semantics computes it is exactly what the direct
    scanner [find_filename] returns (no match gives [None]). *)
Theorem filename_regex_equiv h :
  regexp_exec filename_re h ≫= (fun m => mr_group m 1) = find_filename h.
Proof. apply exec_filename_group. Qed.

Lemma dotrun_quote_line t p :
  dotrun_quote t = Some p -> str_forall line_char p = true.
Proof.
  revert p; induction t as [|c t IH]; intros p; simpl; [done |].
  destruct (is_line_terminator c) eqn:L; [done |].
  destruct (dotrun_quote t) as [q|] eqn:Q.
  - intros [= <-]. simpl. unfold line_char. rewrite L. simpl. by apply IH.
  - destruct (Ascii.eqb c quote); [by intros [= <-] | done].
Qed.

(** What the scanner finds is never empty and never spans a line break. *)
Lemma find_filename_line h n :
  find_filename h = Some n -> n <> "" /\ str_forall line_char n = true.
Proof.
  induction h as [|c h IH]; rewrite find_filename_unfold; [done |].
  destruct (strip_prefix filename_eq (String c h)) as [t|]; simpl; [| apply IH].
  destruct (plus_quote t) as [p|] eqn:Hp; [| apply IH].
  intros [= <-]. destruct t as [|d t]; simpl in Hp; [done |].
  destruct (is_line_terminator d) eqn:L; [done |].
  destruct (dotrun_quote t) as [q|] eqn:Q; simpl in Hp; [| done].
  injection Hp as <-. split; [done |]. simpl. unfold line_char. rewrite L.
  simpl. by eapply dotrun_quote_line.
Qed.
