(* ===== verification/DataUrl.v ===== *)
(** * Reading back a [data:] URL

    The preview that [handleFileSelect] installs ([reader.onload], App.tsx
    lines 43-47) is the string [FileReader.readAsDataURL] produces
    ([JsRuntime.data_url]).  This file gives the inverse of that encoding,
    the way a browser reads such a URL back when it is the [src] of the
    preview [<img>]: a base64 decoder [base64_decode] and a parser
    [parse_data_url] splitting off the media type.  The round trip
    [parse_data_url_data_url] shows that no information about the file's
    bytes is lost: the preview shows exactly the picked file. *)

From stdpp Require Import base list strings options.
From Stdlib Require Import String Ascii NArith ZArith Lia.
From S2P Require Import Prelude JsRuntime Regex.

Open Scope string_scope.
Open Scope ft_scope.

(** ** The base64 alphabet read backwards *)

(** Index of a character of the alphabet [A-Z a-z 0-9 + /]. *)
Definition b64_index (c : ascii) : option N :=
  let n := Ascii.N_of_ascii c in
  if ((65 <=? n) && (n <=? 90))%N then Some (n - 65)%N
  else if ((97 <=? n) && (n <=? 122))%N then Some (n - 71)%N
  else if ((48 <=? n) && (n <=? 57))%N then Some (n + 4)%N
  else if (n =? 43)%N then Some 62%N
  else if (n =? 47)%N then Some 63%N
  else None.

(** The 24-bit value of four sextets, and its three bytes. *)
Definition b64_group (i1 i2 i3 i4 : N) : N :=
  (i1 * 262144 + i2 * 4096 + i3 * 64 + i4)%N.

Definition byte_of_N (n : N) : Byte.byte :=
  default Byte.x00 (Byte.of_N n).

Definition group_bytes (n : N) : list Byte.byte :=
  [byte_of_N (n / 65536); byte_of_N ((n / 256) mod 256); byte_of_N (n mod 256)]%N.

(** Four characters at a time; a final group [xx==] holds one byte and
    [xxx=] two. *)
Fixpoint base64_decode (s : string) : option (list Byte.byte) :=
  match s with
  | EmptyString => Some []
  | String c1 (String c2 (String c3 (String c4 rest))) =>
      i1 ← b64_index c1; i2 ← b64_index c2;
      match b64_index c3, b64_index c4, rest with
      | Some i3, Some i4, _ =>
          l ← base64_decode rest; Some (group_bytes (b64_group i1 i2 i3 i4) ++ l)%list
      | Some i3, None, EmptyString =>
          if Ascii.eqb c4 "=" then Some (take 2 (group_bytes (b64_group i1 i2 i3 0)))
          else None
      | None, None, EmptyString =>
          if Ascii.eqb c3 "=" && Ascii.eqb c4 "=" then
            Some (take 1 (group_bytes (b64_group i1 i2 0 0)))
          else None
      | _, _, _ => None
      end
  | _ => None
  end.

(** ** Data URLs *)

(** [s] cut at the first occurrence of [c]. *)
Fixpoint split_at (c : ascii) (s : string) : option (string * string) :=
  match s with
  | EmptyString => None
  | String d s' =>
      if Ascii.eqb d c then Some ("", s')
      else (fun ht => (String d ht.1, ht.2)) <$> split_at c s'
  end.

(** [s] without the suffix [p]. *)
Fixpoint strip_suffix (p s : string) : option string :=
  if String.eqb s p then Some ""
  else match s with
       | EmptyString => None
       | String c s' => String c <$> strip_suffix p s'
       end.

(** [data:<type>;base64,<payload>]: the media type and the bytes. *)
Definition parse_data_url (u : string) : option (string * list Byte.byte) :=
  rest ← strip_prefix "data:" u;
  hp ← split_at "," rest;
  mt ← strip_suffix ";base64" hp.1;
  bytes ← base64_decode hp.2;
  Some (mt, bytes).

(** The media type [readAsDataURL] writes for a file. *)
Definition data_url_type (f : File) : string :=
  if String.eqb (file_type f) "" then "application/octet-stream" else file_type f.

(** ** The alphabet *)

Lemma b64_index_char n : (n < 64)%N -> b64_index (b64_char n) = Some n.
Proof.
  intros Hn.
  assert (Hall : List.forallb
    (fun k => bool_decide (b64_index (b64_char (N.of_nat k)) = Some (N.of_nat k)))
    (seq 0 64) = true) by (vm_compute; reflexivity).
  rewrite List.forallb_forall in Hall.
  specialize (Hall (N.to_nat n)). rewrite N2Nat.id in Hall.
  apply (bool_decide_eq_true _), Hall, in_seq. lia.
Qed.

Lemma b64_index_char_mod k : b64_index (b64_char (k mod 64)) = Some (k mod 64)%N.
Proof. apply b64_index_char, N.mod_lt. done. Qed.

Lemma b64_index_pad : b64_index "=" = None.
Proof. reflexivity. Qed.

(** [b64_quad]'s shifts and masks are divisions and remainders. *)
Lemma b64_quad_div n :
  b64_quad n =
  String (b64_char (n / 262144))
    (String (b64_char (n / 4096 mod 64))
      (String (b64_char (n / 64 mod 64)) (String (b64_char (n mod 64)) ""))).
Proof.
  unfold b64_quad. rewrite !N.shiftr_div_pow2.
  change 63%N with (N.ones 6). rewrite !N.land_ones. reflexivity.
Qed.

(** ** Arithmetic of a group *)

Lemma b64_group_split n : (n < 16777216)%N ->
  b64_group (n / 262144) (n / 4096 mod 64) (n / 64 mod 64) (n mod 64) = n.
Proof. unfold b64_group. intros. n_divmod. Qed.

Lemma b64_group_split2 a b : (a < 256)%N -> (b < 256)%N ->
  b64_group ((a * 65536 + b * 256) / 262144) ((a * 65536 + b * 256) / 4096 mod 64)
    ((a * 65536 + b * 256) / 64 mod 64) 0 = (a * 65536 + b * 256)%N.
Proof. unfold b64_group. intros. n_divmod. Qed.

Lemma b64_group_split1 a : (a < 256)%N ->
  b64_group (a * 65536 / 262144) (a * 65536 / 4096 mod 64) 0 0 = (a * 65536)%N.
Proof. unfold b64_group. intros. n_divmod. Qed.

Lemma byte_bound (b : Byte.byte) : (Byte.to_N b < 256)%N.
Proof. pose proof (Byte.to_N_bounded b). lia. Qed.

Lemma byte_of_N_to_N b : byte_of_N (Byte.to_N b) = b.
Proof. unfold byte_of_N. by rewrite Byte.of_to_N. Qed.

Lemma group_bytes_3 a b c :
  group_bytes (Byte.to_N a * 65536 + Byte.to_N b * 256 + Byte.to_N c)%N = [a; b; c].
Proof.
  pose proof (byte_bound a). pose proof (byte_bound b). pose proof (byte_bound c).
  unfold group_bytes.
  assert (E1 : ((Byte.to_N a * 65536 + Byte.to_N b * 256 + Byte.to_N c) / 65536
                = Byte.to_N a)%N) by n_divmod.
  assert (E2 : ((Byte.to_N a * 65536 + Byte.to_N b * 256 + Byte.to_N c) / 256 mod 256
                = Byte.to_N b)%N) by n_divmod.
  assert (E3 : ((Byte.to_N a * 65536 + Byte.to_N b * 256 + Byte.to_N c) mod 256
                = Byte.to_N c)%N) by n_divmod.
  by rewrite E1, E2, E3, !byte_of_N_to_N.
Qed.

Lemma take_group_bytes_2 a b :
  take 2 (group_bytes (Byte.to_N a * 65536 + Byte.to_N b * 256)%N) = [a; b].
Proof.
  pose proof (group_bytes_3 a b Byte.x00) as E.
  rewrite N.add_0_r in E. by rewrite E.
Qed.

Lemma take_group_bytes_1 a : take 1 (group_bytes (Byte.to_N a * 65536)%N) = [a].
Proof.
  pose proof (group_bytes_3 a Byte.x00 Byte.x00) as E.
  cbn [Byte.to_N] in E. rewrite N.mul_0_l, !N.add_0_r in E. by rewrite E.
Qed.

(** The decoder on the encoding of one group, padded or not. *)
Ltac decode_group :=
  cbn [base64]; rewrite b64_quad_div; cbn [substring]; str_simpl;
  cbn [base64_decode];
  rewrite !b64_index_char_mod, b64_index_char, ?b64_index_pad by n_divmod;
  str_simpl.

(** ** Decoding inverts encoding *)

Lemma base64_decode_base64 l : base64_decode (base64 l) = Some l.
Proof.
  induction l as [|a|a b|a b c l IH] using list_ind3.
  - done.
  - pose proof (byte_bound a). decode_group.
    by rewrite b64_group_split1, take_group_bytes_1.
  - pose proof (byte_bound a). pose proof (byte_bound b). decode_group.
    by rewrite b64_group_split2, take_group_bytes_2.
  - pose proof (byte_bound a). pose proof (byte_bound b). pose proof (byte_bound c).
    decode_group. rewrite IH. str_simpl.
    rewrite b64_group_split, group_bytes_3 by n_divmod. done.
Qed.

(** ** Parsing the URL back *)

(** A character that is not [c]. *)
Definition not_char (c d : ascii) : bool := negb (Ascii.eqb d c).

Lemma split_at_app c h t :
  str_forall (not_char c) h = true -> split_at c (h +++ String c t) = Some (h, t).
Proof.
  induction h as [|d h IH]; simpl.
  - by rewrite Ascii.eqb_refl.
  - unfold not_char at 1. destruct (Ascii.eqb d c); [done |].
    simpl. intros H. by rewrite IH.
Qed.

Lemma strip_suffix_cons p c s :
  strip_suffix p (String c s) =
  if String.eqb (String c s) p then Some "" else String c <$> strip_suffix p s.
Proof. reflexivity. Qed.

Lemma strip_suffix_app p h : strip_suffix p (h +++ p) = Some h.
Proof.
  induction h as [|c h IH].
  - destruct p as [|c p]; simpl; [done |]. by rewrite Ascii.eqb_refl, String.eqb_refl.
  - rewrite str_app_cons, strip_suffix_cons.
    destruct (String.eqb_spec (String c (h +++ p)) p) as [E|_].
    + apply (f_equal String.length) in E. simpl in E.
      rewrite str_length_app in E. lia.
    + by rewrite IH.
Qed.

(** The round trip of [readAsDataURL]: the media type and every byte of
    the file are read back from the URL, provided the media type holds no
    comma (the separator of the URL's header from its payload). *)
Lemma parse_data_url_data_url f :
  str_forall (not_char ",") (data_url_type f) = true ->
  parse_data_url (data_url f) = Some (data_url_type f, file_bytes f).
Proof.
  intros H. unfold parse_data_url, data_url. fold (data_url_type f).
  rewrite strip_prefix_app, bind_Some.
  change (";base64," +++ base64 (file_bytes f))
    with (";base64" +++ String "," (base64 (file_bytes f))).
  rewrite <- str_app_assoc, split_at_app by (str_simpl; by rewrite H).
  simpl. by rewrite strip_suffix_app, base64_decode_base64.
Qed.
