(* ===== verification/Decimal.v ===== *)
(** * Reading back the size line

    The panel shows [(selectedFile.size / 1024).toFixed(2)] (App.tsx line
    176), modelled by [JsRuntime.to_fixed2].  This file reads such a text
    back the way a reader does, as a decimal with exactly two fraction
    digits ([fixed2_value], in hundredths), and proves that the text of
    [to_fixed2_digits n] reads back as [n] ([fixed2_value_digits]): the
    formatting is faithful, whatever the number of digits. *)

From stdpp Require Import base list strings options pretty.
From Stdlib Require Import String Ascii NArith ZArith Lia.
From S2P Require Import Prelude JsRuntime DataUrl.

Open Scope string_scope.
Open Scope ft_scope.

(** ** Decimal digits *)

Definition digit_value (c : ascii) : option N :=
  let n := Ascii.N_of_ascii c in
  if ((48 <=? n) && (n <=? 57))%N then Some (n - 48)%N else None.

Definition is_digit (c : ascii) : bool := bool_decide (digit_value c <> None).

(** The value of a string of digits, read left to right after [acc]. *)
Fixpoint digits_acc (acc : N) (s : string) : option N :=
  match s with
  | EmptyString => Some acc
  | String c s' => d ← digit_value c; digits_acc (acc * 10 + d)%N s'
  end.

(** [<digits>.<digit><digit>], at least one digit before the point, read
    as a number of hundredths. *)
Definition fixed2_value (t : string) : option N :=
  ab ← split_at "." t;
  if Nat.leb 1 (String.length ab.1) && Nat.eqb (String.length ab.2) 2
  then digits_acc 0 (ab.1 +++ ab.2) else None.

(** ** Digits read back *)

Lemma digit_value_pretty_char d :
  (d < 10)%N -> digit_value (pretty_N_char d) = Some d.
Proof.
  intros Hd.
  assert (Hall : List.forallb
    (fun k => bool_decide (digit_value (pretty_N_char (N.of_nat k)) = Some (N.of_nat k)))
    (seq 0 10) = true) by (vm_compute; reflexivity).
  rewrite List.forallb_forall in Hall.
  specialize (Hall (N.to_nat d)). rewrite N2Nat.id in Hall.
  apply (bool_decide_eq_true _), Hall, in_seq. lia.
Qed.

Lemma digits_acc_shift acc s :
  digits_acc acc s = (fun v => acc * 10 ^ N.of_nat (String.length s) + v)%N <$> digits_acc 0 s.
Proof.
  revert acc; induction s as [|c s IH]; intros acc; simpl.
  - f_equal. lia.
  - destruct (digit_value c) as [d|]; simpl; [| done].
    rewrite (IH (acc * 10 + d)%N), (IH (0 * 10 + d)%N).
    destruct (digits_acc 0 s); simpl; [| done]. f_equal.
    rewrite Nat2N.inj_succ, N.pow_succ_r'. lia.
Qed.

Lemma digits_acc_pretty_go x s :
  digits_acc 0 (pretty_N_go x s) =
  (fun v => x * 10 ^ N.of_nat (String.length s) + v)%N <$> digits_acc 0 s.
Proof.
  revert s. induction (N.lt_wf_0 x) as [x _ IH]; intros s.
  destruct (decide (x = 0%N)) as [->|Hx].
  - rewrite pretty_N_go_0. destruct (digits_acc 0 s); simpl; [by rewrite N.mul_0_l | done].
  - rewrite pretty_N_go_step by lia.
    rewrite IH by (apply N.div_lt; lia).
    simpl. rewrite digit_value_pretty_char by (apply N.mod_lt; lia).
    simpl. rewrite digits_acc_shift.
    destruct (digits_acc 0 s) as [v|]; simpl; [| done]. f_equal.
    rewrite Nat2N.inj_succ, N.pow_succ_r'.
    pose proof (N.div_mod x 10 ltac:(lia)). nia.
Qed.

Lemma digits_acc_pretty n : digits_acc 0 (pretty n) = Some n.
Proof.
  unfold pretty, pretty_N. destruct (decide (n = 0%N)) as [->|_]; [done |].
  rewrite digits_acc_pretty_go. simpl. f_equal. lia.
Qed.

Lemma digits_acc_zeros p s : digits_acc 0 (zeros p +++ s) = digits_acc 0 s.
Proof. induction p as [|p IH]; [done |]. by rewrite <- IH. Qed.

Lemma digits_acc_digits acc s v : digits_acc acc s = Some v -> str_forall is_digit s = true.
Proof.
  revert acc; induction s as [|c s IH]; intros acc; simpl; [done |].
  destruct (digit_value c) eqn:D; simpl; [| done].
  intros H. unfold is_digit at 1. rewrite D. simpl. eauto.
Qed.

Lemma zeros_length p : String.length (zeros p) = p.
Proof. induction p; simpl; auto. Qed.

(** ** The text of [toFixed(2)] *)

(** The digit string [toFixed] splits: at least three digits, worth [n]. *)
Lemma to_fixed2_digits_split n :
  exists m, to_fixed2_digits n =
    substring 0 (String.length m - 2) m +++ "." +++ substring (String.length m - 2) 2 m /\
    3 <= String.length m /\ digits_acc 0 m = Some n.
Proof.
  unfold to_fixed2_digits.
  set (m0 := if (n =? 0)%N then "0" else pretty n).
  assert (V : digits_acc 0 m0 = Some n).
  { unfold m0. destruct (N.eqb_spec n 0) as [Hn|_]; [by rewrite Hn | apply digits_acc_pretty]. }
  assert (L : 1 <= String.length m0).
  { unfold m0. destruct (N.eqb_spec n 0) as [_|Hn]; [simpl; lia |].
    pose proof (digits_acc_pretty n) as P.
    destruct (pretty n); simpl in *; [congruence | lia]. }
  destruct (Nat.leb_spec (String.length m0) 2).
  - eexists. split; [reflexivity |]. rewrite str_length_app, zeros_length.
    split; [lia |]. by rewrite digits_acc_zeros.
  - eexists. split; [reflexivity |]. split; [lia | done].
Qed.

(** The size line reads back: the text of [to_fixed2_digits n] is a
    decimal with two fraction digits worth [n] hundredths. *)
Lemma fixed2_value_digits n : fixed2_value (to_fixed2_digits n) = Some n.
Proof.
  destruct (to_fixed2_digits_split n) as (m & -> & Hl & V).
  set (k := String.length m).
  assert (D : str_forall is_digit m = true) by (eapply digits_acc_digits; eauto).
  unfold fixed2_value.
  change ("." +++ ?b) with (String "." b).
  rewrite split_at_app.
  2: { eapply str_forall_impl; [| apply str_forall_substring, D].
       intros c. unfold is_digit, not_char. intros H.
       destruct (Ascii.eqb_spec c "."); [subst; done | done]. }
  simpl. rewrite !substring_length by lia.
  assert (S : substring 0 (k - 2) m +++ substring (k - 2) 2 m = m).
  { pose proof (substring_split (k - 2) m) as S.
    replace (String.length m - (k - 2)) with 2 in S by lia. apply S. lia. }
  simpl. rewrite S. destruct (k - 2) eqn:E; [lia | done].
Qed.
