(* ===== verification/Http.v ===== *)
(** * The HTTP client the front end calls: axios, as the code uses it

    Not code of the repository: the behaviour of [axios.get] / [axios.post]
    that [fileApi.ts] relies on, written from axios' documented defaults.
    - A request ([HttpRequest]) is a method, a URL, the parts of a
      multipart form, the explicit Content-Type header and the
      [responseType].
    - What the network gives back ([NetResult]) is either a response or a
      transport failure (no response at all, with its message, e.g.
      [Network Error]).
    - [axios_settle] is axios' default [validateStatus]: a status in
      [200, 300) fulfils the promise with the response; any other status
      rejects it with an [AxiosError] that carries the response and the
      message [Request failed with status code N]; a transport failure
      rejects it with no response.
    Response headers are the object axios exposes: a map from lower-cased
    header names to values (stdpp [gmap]). *)

From stdpp Require Import base list strings options gmap pretty.
From Stdlib Require Import String.
From S2P Require Import Prelude JsRuntime.

Open Scope string_scope.
Open Scope ft_scope.

Inductive Method := GET | POST.

#[export] Instance Method_eq_dec : EqDecision Method.
Proof. solve_decision. Defined.

(** [responseType]: axios' default ([json]) or [blob]. *)
Inductive ResponseType := RTJson | RTBlob.

#[export] Instance ResponseType_eq_dec : EqDecision ResponseType.
Proof. solve_decision. Defined.

Record HttpRequest := mkRequest {
  req_method : Method;
  req_url : string;
  req_form : list (string * File);        (** multipart parts, in order *)
  req_content_type : option string;       (** explicit Content-Type header *)
  req_response_type : ResponseType
}.

Record Response := mkResponse {
  resp_status : nat;
  resp_headers : gmap string string;      (** lower-cased names *)
  resp_body : Blob                         (** [response.data] *)
}.

Inductive NetResult :=
| NetResponse (r : Response)
| NetFailure (message : string).

Record AxiosError := mkAxiosError {
  ax_response : option Response;          (** [error.response] *)
  ax_message : string                     (** [error.message] *)
}.

Inductive AxiosOutcome :=
| AxOk (r : Response)          (** the promise fulfils *)
| AxErr (e : AxiosError).      (** the promise rejects *)

(** axios' default [validateStatus]. *)
Definition validate_status (status : nat) : bool :=
  Nat.leb 200 status && Nat.ltb status 300.

Definition axios_settle (n : NetResult) : AxiosOutcome :=
  match n with
  | NetResponse r =>
      if validate_status (resp_status r) then AxOk r
      else AxErr (mkAxiosError (Some r)
             ("Request failed with status code " +++ pretty (N.of_nat (resp_status r))))
  | NetFailure m => AxErr (mkAxiosError None m)
  end.

(** ** Facts *)

Lemma axios_settle_ok n r :
  axios_settle n = AxOk r <->
  n = NetResponse r /\ validate_status (resp_status r) = true.
Proof.
  destruct n as [r'|m]; simpl.
  - destruct (validate_status (resp_status r')) eqn:E; split.
    + by intros [= ->].
    + by intros [[= ->] _].
    + done.
    + intros [[= ->] ?]. congruence.
  - split; [done | by intros [? _]].
Qed.

Lemma axios_settle_err n e :
  axios_settle n = AxErr e ->
  match ax_response e with
  | Some r => n = NetResponse r /\ validate_status (resp_status r) = false
  | None => n = NetFailure (ax_message e)
  end.
Proof.
  destruct n as [r|m]; simpl; [| by intros [= <-]].
  destruct (validate_status (resp_status r)) eqn:E; by intros [= <-].
Qed.
