(* ===== verification/FileApi.v ===== *)
(** * [src/React_Frontend/src/api/fileApi.ts]

    The HTTP client of the front end.  Each asynchronous function is split
    at its [await]: the request it sends ([..._request]) and the code that
    runs when the axios promise settles ([checkHealth], [transformImage]),
    which receives the [AxiosOutcome] of [Http].
    - [checkHealth]: true exactly when the GET /health promise fulfils
      with status 200; false on rejection.
    - [transformImage_request]: POST to /transform?to=<format> with one
      multipart part named [file], [responseType: 'blob'].
    - [transformImage]: on fulfilment, the blob body and the filename read
      from the Content-Disposition header ([content_disposition_filename],
      which runs the RegExp engine of [Regex]); on rejection the axios
      error propagates unchanged.

    The [ApiClient] class is the boundary the controller ([Controller])
    is written against, and [ApiClientSpec] the promises the controller's
    theorems use; [fileApi] is the instance given by this file, and
    [fileApi_spec] proves that it keeps those promises. *)

From stdpp Require Import base list strings options gmap pretty.
From Stdlib Require Import String.
From S2P Require Import Prelude JsRuntime Regex Http.

Open Scope string_scope.
Open Scope ft_scope.

Definition API_BASE_URL : string := "http://localhost:8080".

Record TransformResponse := mkTransformResponse {
  tr_data : Blob;
  tr_filename : string
}.

(** ** checkHealth *)

Definition checkHealth_request : HttpRequest :=
  mkRequest GET (API_BASE_URL +++ "/health") [] None RTJson.

(** [return response.status === 200] after a fulfilled [await], [return
    false] in the [catch]. *)
Definition checkHealth (o : AxiosOutcome) : bool :=
  match o with
  | AxOk response => Nat.eqb (resp_status response) 200
  | AxErr _ => false
  end.

(** ** transformImage *)

Definition transformImage_request (file : File) (targetFormat : string) : HttpRequest :=
  mkRequest POST (API_BASE_URL +++ "/transform?to=" +++ targetFormat)
    [("file", file)] (Some "multipart/form-data") RTBlob.

(** Lines 48-56: the default name, overwritten by group 1 of the match when
    the header is present, non-empty and matches.  Group 1 always takes
    part in a match of this pattern ([filename_match_has_group]), so the
    [default] below never applies. *)
Definition content_disposition_filename (targetFormat : string)
    (contentDisposition : option string) : string :=
  let filename := "converted." +++ targetFormat in
  match contentDisposition with
  | Some cd =>
      if truthy (JStr cd) then
        match regexp_exec filename_re cd with
        | Some filenameMatch => default filename (mr_group filenameMatch 1)
        | None => filename
        end
      else filename
  | None => filename
  end.

Definition transformImage (targetFormat : string) (o : AxiosOutcome)
    : AxiosError + TransformResponse :=
  match o with
  | AxOk response =>
      inr (mkTransformResponse (resp_body response)
             (content_disposition_filename targetFormat
                (resp_headers response !! "content-disposition")))
  | AxErr e => inl e
  end.

(** ** The client boundary *)

Class ApiClient := {
  api_health_request : HttpRequest;
  api_check_health : AxiosOutcome -> bool;
  api_transform_request : File -> string -> HttpRequest;
  api_transform : string -> AxiosOutcome -> AxiosError + TransformResponse
}.

(** What the controller relies on: health is only reported after a
    fulfilled request; a successful conversion returns the response body
    under a non-empty name; a failure is the rejection itself. *)
Class ApiClientSpec (api : ApiClient) := {
  api_health_fulfilled o :
    api_check_health o = true -> exists r, o = AxOk r;
  api_transform_ok fmt o t :
    api_transform fmt o = inr t ->
    exists r, o = AxOk r /\ tr_data t = resp_body r /\ tr_filename t <> "";
  api_transform_err fmt o e :
    api_transform fmt o = inl e -> o = AxErr e
}.

#[export] Instance fileApi : ApiClient := {|
  api_health_request := checkHealth_request;
  api_check_health := checkHealth;
  api_transform_request := transformImage_request;
  api_transform := transformImage
|}.

(** ** Filename derivation *)

Lemma exec_filename_groups h i m :
  exec_from filename_re h i = Some m ->
  exists n, mr_groups m = [(1, n)].
Proof.
  revert i; induction h as [|c h IH]; intros i; rewrite exec_from_unfold;
    [pose proof (match_filename_re_at EmptyString) as M
    |pose proof (match_filename_re_at (String c h)) as M];
    destruct (match_re filename_re _ [] _) as [[mt cs]|];
    destruct (strip_prefix filename_eq _ ≫= plus_quote); simplify_eq/=;
    try (intros [= <-]; simpl; eauto); auto.
  apply IH.
Qed.

(** Group 1 takes part in every match of /filename="(.+)"/. *)
Lemma filename_match_has_group h m :
  regexp_exec filename_re h = Some m -> is_Some (mr_group m 1).
Proof.
  intros H. destruct (exec_filename_groups h 0 m H) as [n Hn].
  unfold mr_group. rewrite Hn. by eexists.
Qed.

(** The match of the engine, read through the direct scanner. *)
Lemma content_disposition_scanner fmt cd :
  content_disposition_filename fmt (Some cd) =
  default ("converted." +++ fmt) (find_filename cd).
Proof.
  unfold content_disposition_filename. simpl.
  destruct (String.eqb_spec cd "") as [->|]; simpl; [done |].
  pose proof (exec_filename_group cd 0) as E. unfold regexp_exec.
  destruct (exec_from filename_re cd 0) as [m|] eqn:Hm; simpl in E; rewrite <- E; [|done].
  by destruct (filename_match_has_group cd m Hm) as [nm ->].
Qed.

Lemma find_filename_nonempty h n : find_filename h = Some n -> n <> "".
Proof.
  induction h as [|c h IH]; rewrite find_filename_unfold.
  - done.
  - destruct (strip_prefix filename_eq (String c h)) as [t|]; simpl; [|apply IH].
    destruct (plus_quote t) as [p|] eqn:Hp; [| apply IH].
    intros [= <-]. destruct t as [|d t]; simpl in Hp; [done |].
    destruct (is_line_terminator d); [done |].
    by destruct (dotrun_quote t); simplify_eq/=.
Qed.

Lemma content_disposition_filename_nonempty fmt cd :
  content_disposition_filename fmt cd <> "".
Proof.
  destruct cd as [cd|]; [rewrite content_disposition_scanner |]; [|done].
  destruct (find_filename cd) eqn:E; simpl; [| done].
  by eapply find_filename_nonempty.
Qed.

#[export] Instance fileApi_spec : ApiClientSpec fileApi.
Proof.
  split; simpl.
  - intros [r|e]; simpl; [eauto | done].
  - intros fmt [r|e] t H; [| discriminate]. injection H as <-.
    exists r. split_and!; [done | done | apply content_disposition_filename_nonempty].
  - by intros fmt [r|e] e'; simpl; [| intros [= ->]].
Qed.

(** ** Properties of the client *)

(** C2. [checkHealth] reports a healthy backend exactly when GET /health
    is answered with status 200: any other answer, including the other 2xx
    statuses, and any transport failure give [false]. *)
Theorem checkHealth_settle n :
  checkHealth (axios_settle n) = true <->
  exists r, n = NetResponse r /\ resp_status r = 200.
Proof.
  destruct n as [r|m]; simpl.
  - destruct (validate_status (resp_status r)) eqn:V; simpl; split.
    + intros H. exists r. split; [done | by apply Nat.eqb_eq].
    + intros [r' [[= <-] H]]. by apply Nat.eqb_eq.
    + done.
    + intros [r' [[= <-] H]]. unfold validate_status in V. by rewrite H in V.
  - split; [done | by intros [? [? _]]].
Qed.

(** C3. [transformImage] on every outcome of the POST: a 2xx answer gives
    its body and the name found by the filename scanner (the fallback
    converted.<format> when the Content-Disposition header is absent,
    empty or does not match); any other status and any transport failure
    reject with the axios error, carrying the response when there is one. *)
Theorem transformImage_result fmt n :
  transformImage fmt (axios_settle n) =
  match n with
  | NetResponse r =>
      if validate_status (resp_status r) then
        inr (mkTransformResponse (resp_body r)
               (default ("converted." +++ fmt)
                  (resp_headers r !! "content-disposition" ≫= find_filename)))
      else inl (mkAxiosError (Some r)
             ("Request failed with status code " +++ pretty (N.of_nat (resp_status r))))
  | NetFailure m => inl (mkAxiosError None m)
  end.
Proof.
  destruct n as [r|m]; [| done]. unfold axios_settle.
  destruct (validate_status (resp_status r)); [| done]. unfold transformImage.
  destruct (resp_headers r !! "content-disposition") as [cd|]; [| done].
  by rewrite content_disposition_scanner.
Qed.

(** C4. Filename derivation from a header [pre filename="body"post]: when
    nothing before the literal is a quote, [body] is non-empty and holds no
    line break, and [post] holds no quote before its first line break, the
    derived name is exactly [body].  As the pattern's [.+] is greedy,
    [body] runs to the last quote of the line: it may itself contain
    quotes (see [derived_filename_greedy]). *)
Theorem derived_filename_shape fmt pre body post :
  str_forall not_quote pre = true ->
  body <> "" -> str_forall line_char body = true ->
  dotrun_quote post = None ->
  content_disposition_filename fmt
    (Some (pre +++ filename_eq +++ body +++ String quote post)) = body.
Proof.
  intros Hpre Hne Hb Hp.
  by rewrite content_disposition_scanner, find_filename_shape.
Qed.

(** The spec's example: [attachment; filename="cat.png"] gives [cat.png]. *)
Lemma derived_filename_shape_witness :
  content_disposition_filename "png"
    (Some ("attachment; " +++ filename_eq +++ "cat.png" +++ String quote "")) = "cat.png".
Proof.
  apply (derived_filename_shape "png" "attachment; " "cat.png" "");
    [reflexivity | discriminate | reflexivity | reflexivity].
Defined.

(** ** Concrete behaviour *)

Example derived_filename_missing :
  content_disposition_filename "jpg" None = "converted.jpg".
Proof. reflexivity. Qed.

(** A further quoted parameter on the same line is swallowed by [.+]. *)
Example derived_filename_greedy :
  content_disposition_filename "png"
    (Some ("attachment; " +++ filename_eq +++ "a.png" +++ String quote "; size="
           +++ String quote "3" +++ String quote ""))
  = "a.png" +++ String quote "; size=" +++ String quote "3".
Proof. vm_compute. reflexivity. Qed.

(** An unquoted [filename=] parameter (RFC 6266 token form) falls back. *)
Example derived_filename_unquoted :
  content_disposition_filename "png" (Some "attachment; filename=photo.png")
  = "converted.png".
Proof. vm_compute. reflexivity. Qed.

(** A 204 answer to GET /health is reported as unhealthy. *)
Example checkHealth_204 :
  checkHealth (axios_settle (NetResponse (mkResponse 204 ∅ (mkBlob [] "")))) = false.
Proof. reflexivity. Qed.

(** C17. Every derived filename is usable as a download name: it is never
    empty and never contains a line break, whether it comes from the
    header or from the fallback, for any target format without line
    breaks. *)
Theorem derived_filename_wellformed fmt cd :
  str_forall line_char fmt = true ->
  content_disposition_filename fmt cd <> "" /\
  str_forall line_char (content_disposition_filename fmt cd) = true.
Proof.
  intros Hf. split; [apply content_disposition_filename_nonempty |].
  destruct cd as [cd|]; [rewrite content_disposition_scanner |]; simpl.
  - destruct (find_filename cd) as [n|] eqn:E; simpl; [| exact Hf].
    by apply find_filename_line in E as [_ ?].
  - exact Hf.
Qed.

Lemma derived_filename_wellformed_witness :
  content_disposition_filename "png" (Some "inline") <> "" /\
  str_forall line_char (content_disposition_filename "png" (Some "inline")) = true.
Proof. apply (derived_filename_wellformed "png" (Some "inline")). reflexivity. Defined.
