(* ===== verification/Controller.v ===== *)
(** * [src/React_Frontend/src/App.tsx]: the conversion session controller

    The component's [useState] hooks are the fields of [AppState]; each
    [set...] setter is a function on it.  The ref [fileInputRef] is the
    field [fileInput]: [Some v] while the hidden [<input>] is mounted (with
    its current value [v]), [None] while it is not.

    Handlers that [await] are split at the [await]: the synchronous part
    runs on the event and records a [Pending] completion (with the values
    its closure captured) and the request it sent; the rest runs when the
    environment settles that completion ([Session.step]).  The browser
    objects [handleDownload] touches (object URLs, the anchors appended to
    [document.body], the files saved) are the [Browser] record.

    Everything is written in a [Section] over the client boundary
    [ApiClient] of [FileApi]; [Session] instantiates it with [fileApi]. *)

From stdpp Require Import base list strings options gmap.
From Stdlib Require Import String Ascii.
From S2P Require Import Prelude JsRuntime Regex DataUrl Decimal Http FileApi.

Open Scope string_scope.
Open Scope ft_scope.

(** [type ConversionStatus = 'idle' | 'converting' | 'success' | 'error'] *)
Inductive ConversionStatus := Idle | Converting | Success | Error.

#[export] Instance ConversionStatus_eq_dec : EqDecision ConversionStatus.
Proof. solve_decision. Defined.

(** [useState<'png' | 'jpg'>] *)
Inductive Format := Png | Jpg.

#[export] Instance Format_eq_dec : EqDecision Format.
Proof. solve_decision. Defined.

Definition format_string (f : Format) : string :=
  match f with Png => "png" | Jpg => "jpg" end.

Record AppState := mkApp {
  selectedFile : option File;
  previewUrl : option string;
  targetFormat : Format;
  status : ConversionStatus;
  errorMessage : JsVal;
  convertedBlob : option Blob;
  convertedFilename : string;
  isBackendHealthy : option bool;
  isDragging : bool;
  fileInput : option string
}.

(** The first render's state (lines 9-18). *)
Definition initial_app : AppState :=
  mkApp None None Png Idle (JStr "") None "" None false None.

(** ** The state setters *)

Definition setSelectedFile v s := mkApp v (previewUrl s) (targetFormat s) (status s)
  (errorMessage s) (convertedBlob s) (convertedFilename s) (isBackendHealthy s)
  (isDragging s) (fileInput s).
Definition setPreviewUrl v s := mkApp (selectedFile s) v (targetFormat s) (status s)
  (errorMessage s) (convertedBlob s) (convertedFilename s) (isBackendHealthy s)
  (isDragging s) (fileInput s).
Definition setTargetFormat v s := mkApp (selectedFile s) (previewUrl s) v (status s)
  (errorMessage s) (convertedBlob s) (convertedFilename s) (isBackendHealthy s)
  (isDragging s) (fileInput s).
Definition setStatus v s := mkApp (selectedFile s) (previewUrl s) (targetFormat s) v
  (errorMessage s) (convertedBlob s) (convertedFilename s) (isBackendHealthy s)
  (isDragging s) (fileInput s).
Definition setErrorMessage v s := mkApp (selectedFile s) (previewUrl s) (targetFormat s)
  (status s) v (convertedBlob s) (convertedFilename s) (isBackendHealthy s)
  (isDragging s) (fileInput s).
Definition setConvertedBlob v s := mkApp (selectedFile s) (previewUrl s) (targetFormat s)
  (status s) (errorMessage s) v (convertedFilename s) (isBackendHealthy s)
  (isDragging s) (fileInput s).
Definition setConvertedFilename v s := mkApp (selectedFile s) (previewUrl s)
  (targetFormat s) (status s) (errorMessage s) (convertedBlob s) v
  (isBackendHealthy s) (isDragging s) (fileInput s).
Definition setIsBackendHealthy v s := mkApp (selectedFile s) (previewUrl s)
  (targetFormat s) (status s) (errorMessage s) (convertedBlob s) (convertedFilename s) v
  (isDragging s) (fileInput s).
Definition setIsDragging v s := mkApp (selectedFile s) (previewUrl s) (targetFormat s)
  (status s) (errorMessage s) (convertedBlob s) (convertedFilename s)
  (isBackendHealthy s) v (fileInput s).
(** [fileInputRef.current.value = v] (only meaningful while mounted). *)
Definition setFileInput v s := mkApp (selectedFile s) (previewUrl s) (targetFormat s)
  (status s) (errorMessage s) (convertedBlob s) (convertedFilename s)
  (isBackendHealthy s) (isDragging s) v.

(** ** Asynchronous work in flight *)

Inductive Pending :=
| PHealth                          (** [await fileApi.checkHealth()] *)
| PRead (file : File)              (** [reader.readAsDataURL(file)] *)
| PConvert (file : File) (fmt : Format).
    (** [await fileApi.transformImage(selectedFile, targetFormat)] with the
        values the closure captured *)

#[export] Instance Pending_eq_dec : EqDecision Pending.
Proof. solve_decision. Defined.

(** ** The browser objects [handleDownload] uses *)

Record Anchor := mkAnchor { a_href : nat; a_download : string }.

#[export] Instance Anchor_eq_dec : EqDecision Anchor.
Proof. solve_decision. Defined.

Record Browser := mkBrowser {
  object_urls : list (nat * Blob);   (** live [blob:] URLs *)
  next_url : nat;
  body : list Anchor;                (** anchors in [document.body] *)
  downloads : list (string * Blob)   (** files saved, oldest first *)
}.

Definition initial_browser : Browser := mkBrowser [] 0 [] [].

(** [URL.createObjectURL(blob)] *)
Definition createObjectURL (b : Blob) (br : Browser) : nat * Browser :=
  (next_url br, mkBrowser ((next_url br, b) :: object_urls br) (S (next_url br))
                  (body br) (downloads br)).

Fixpoint lookup_url (u : nat) (l : list (nat * Blob)) : option Blob :=
  match l with
  | [] => None
  | (v, b) :: l' => if Nat.eqb u v then Some b else lookup_url u l'
  end.

(** [URL.revokeObjectURL(url)] *)
Definition revokeObjectURL (u : nat) (br : Browser) : Browser :=
  mkBrowser (filter (fun e => negb (Nat.eqb e.1 u)) (object_urls br)) (next_url br)
    (body br) (downloads br).

(** [document.body.appendChild(a)] / [removeChild(a)] *)
Definition appendChild (a : Anchor) (br : Browser) : Browser :=
  mkBrowser (object_urls br) (next_url br) (body br ++ [a]) (downloads br).

Fixpoint remove_first (a : Anchor) (l : list Anchor) : list Anchor :=
  match l with
  | [] => []
  | x :: l' => if decide (x = a) then l' else x :: remove_first a l'
  end.

Definition removeChild (a : Anchor) (br : Browser) : Browser :=
  mkBrowser (object_urls br) (next_url br) (remove_first a (body br)) (downloads br).

(** [a.click()] on an anchor with a [download] attribute: the browser saves
    the blob the URL denotes under that name; a revoked URL saves nothing. *)
Definition click (a : Anchor) (br : Browser) : Browser :=
  match lookup_url (a_href a) (object_urls br) with
  | Some b => mkBrowser (object_urls br) (next_url br) (body br)
                (downloads br ++ [(a_download a, b)])
  | None => br
  end.

(** ** The page: component state, work in flight, requests, browser *)

Record World := mkWorld {
  app : AppState;
  pending : list Pending;      (** completions not yet delivered *)
  sent : list HttpRequest;     (** requests sent, oldest first *)
  browser : Browser;
  crashed : bool               (** a render threw: React unmounted the tree *)
}.

Definition with_app (f : AppState -> AppState) (w : World) : World :=
  mkWorld (f (app w)) (pending w) (sent w) (browser w) (crashed w).
Definition add_pending (p : Pending) (w : World) : World :=
  mkWorld (app w) (pending w ++ [p]) (sent w) (browser w) (crashed w).
Definition send (r : HttpRequest) (w : World) : World :=
  mkWorld (app w) (pending w) (sent w ++ [r]) (browser w) (crashed w).
Definition with_browser (f : Browser -> Browser) (w : World) : World :=
  mkWorld (app w) (pending w) (sent w) (f (browser w)) (crashed w).

(** ** Rendering (lines 118-254) *)

Record PanelView := mkPanel {
  pv_preview : option string;       (** [previewUrl && <img src=...>] *)
  pv_file_name : string;
  pv_file_size : string;            (** the size in KB, two decimals *)
  pv_file_type : string;
  pv_active_format : Format;
  pv_format_disabled : bool;        (** both format buttons *)
  pv_convert_disabled : bool;
  pv_converting_label : bool;       (** spinner and [Converting...] *)
  pv_download : option string;      (** the download button and its label *)
  pv_success : bool;                (** [Conversion successful!] *)
  pv_error : option string          (** the error text *)
}.

Record View := mkView {
  v_health : option bool;           (** the health indicator, once known *)
  v_upload_area : option bool;      (** shown, with its [dragging] class *)
  v_panel : option PanelView
}.

(** A JSX child [{v}]: strings render as text, [undefined] as nothing; a
    Blob is not a valid React child and makes the render throw. *)
Definition render_text (v : JsVal) : option string :=
  match v with
  | JStr t => Some t
  | JUndefined => Some ""
  | JBlob _ => None
  end.

(** [(selectedFile.size / 1024).toFixed(2)] (line 176). *)
Definition file_size_text (f : File) : string :=
  to_fixed2 (N.of_nat (file_size f)) 1024.

Definition render (s : AppState) : option View :=
  match selectedFile s with
  | None => Some (mkView (isBackendHealthy s) (Some (isDragging s)) None)
  | Some f =>
      let converting := bool_decide (status s = Converting) in
      err ← (if bool_decide (status s = Error) then
               Some <$> render_text (js_or (errorMessage s) (JStr "Conversion failed"))
             else Some None);
      Some (mkView (isBackendHealthy s) None (Some (mkPanel
        (previewUrl s ≫= fun u => if truthy (JStr u) then Some u else None)
        (file_name f) (file_size_text f) (file_type f) (targetFormat s)
        converting
        (converting || negb (bool_decide (isBackendHealthy s = Some true)))
        converting
        (if bool_decide (status s = Success) && bool_decide (convertedBlob s <> None)
         then Some ("Download " +++ to_upper_case (format_string (targetFormat s)))
         else None)
        (bool_decide (status s = Success))
        err)))
  end.

(** React attaches [fileInputRef] to a fresh [<input>] (value [""]) when the
    upload area mounts and sets it to [null] when it unmounts. *)
Definition commit_refs (s : AppState) : AppState :=
  match selectedFile s, fileInput s with
  | None, None => setFileInput (Some "") s
  | None, Some _ => s
  | Some _, _ => setFileInput None s
  end.

(** Choosing files in the picker sets the input's value before [onChange]. *)
Definition pick_value (files : list File) : string :=
  match files with
  | f :: _ => "C:\fakepath\" +++ file_name f
  | [] => ""
  end.

(** ** The handlers *)

Section Handlers.
Context `{api : ApiClient}.

(** Lines 25-28, up to the [await]. *)
Definition checkBackendHealth (w : World) : World :=
  send api_health_request (add_pending PHealth w).

(** Line 27: [setIsBackendHealthy(healthy)]. *)
Definition checkBackendHealth_resume (o : AxiosOutcome) (s : AppState) : AppState :=
  setIsBackendHealthy (Some (api_check_health o)) s.

(** Lines 30-48: the one acceptance path of both the picker and the drop
    target. *)
Definition handleFileSelect (file : File) (w : World) : World :=
  if negb (starts_with (file_type file) "image/") then
    with_app (fun s => setStatus Error
                (setErrorMessage (JStr "Please select an image file") s)) w
  else
    add_pending (PRead file)
      (with_app (fun s => setConvertedBlob None (setErrorMessage (JStr "")
                 (setStatus Idle (setSelectedFile (Some file) s)))) w).

(** Lines 44-46: [reader.onload]. *)
Definition reader_onload (file : File) (s : AppState) : AppState :=
  setPreviewUrl (Some (data_url file)) s.

(** Lines 50-55. *)
Definition handleFileInputChange (files : list File) (w : World) : World :=
  match files with
  | file :: _ => handleFileSelect file w
  | [] => w
  end.

(** Lines 57-65. *)
Definition handleDragOver (w : World) : World := with_app (setIsDragging true) w.
Definition handleDragLeave (w : World) : World := with_app (setIsDragging false) w.

(** Lines 67-75. *)
Definition handleDrop (files : list File) (w : World) : World :=
  let w := with_app (setIsDragging false) w in
  match files with
  | file :: _ => handleFileSelect file w
  | [] => w
  end.

(** Lines 77-84, up to the [await]. *)
Definition handleConvert (w : World) : World :=
  match selectedFile (app w) with
  | None => w
  | Some file =>
      let fmt := targetFormat (app w) in
      send (api_transform_request file (format_string fmt))
        (add_pending (PConvert file fmt)
           (with_app (fun s => setErrorMessage (JStr "") (setStatus Converting s)) w))
  end.

(** Line 90: [error.response?.data || error.message || 'Conversion failed']. *)
Definition conversion_error_message (e : AxiosError) : JsVal :=
  js_or (opt_chain (ax_response e) (fun r => JBlob (resp_body r)))
    (js_or (JStr (ax_message e)) (JStr "Conversion failed")).

(** Lines 84-91, after the [await]. *)
Definition handleConvert_resume (fmt : Format) (o : AxiosOutcome) (s : AppState)
    : AppState :=
  match api_transform (format_string fmt) o with
  | inr result =>
      setStatus Success (setConvertedFilename (tr_filename result)
                           (setConvertedBlob (Some (tr_data result)) s))
  | inl error =>
      setErrorMessage (conversion_error_message error) (setStatus Error s)
  end.

(** Lines 94-105. *)
Definition handleDownload (s : AppState) (br : Browser) : Browser :=
  match convertedBlob s with
  | None => br
  | Some blob =>
      let '(url, br) := createObjectURL blob br in
      let a := mkAnchor url (convertedFilename s) in
      revokeObjectURL url (removeChild a (click a (appendChild a br)))
  end.

(** Lines 107-116. *)
Definition handleReset (s : AppState) : AppState :=
  let s' := setConvertedBlob None (setErrorMessage (JStr "")
              (setStatus Idle (setPreviewUrl None (setSelectedFile None s)))) in
  match fileInput s with
  | Some _ => setFileInput (Some "") s'
  | None => s'
  end.

(** The mount: first render and commit, then the effect of lines 21-23. *)
Definition initial_world : World :=
  checkBackendHealth (mkWorld (commit_refs initial_app) [] [] initial_browser false).
End Handlers.

(** ** Events *)

(** What can happen next on the page: the user acts on what is rendered,
    or the environment delivers one of the completions in flight (in any
    order: the [i]-th pending one). *)
Inductive Event :=
| EvHealthSettled (i : nat) (n : NetResult)
| EvReadLoaded (i : nat)
| EvConvertSettled (i : nat) (n : NetResult)
| EvPick (files : list File)      (** the picker's [onChange] *)
| EvDragOver
| EvDragLeave
| EvDrop (files : list File)
| EvClickFormat (f : Format)
| EvClickConvert
| EvClickDownload
| EvClickReset.

(** The elements an event needs, read off the rendered view. *)
Definition upload_shown (v : View) : bool := bool_decide (v_upload_area v <> None).

Definition panel_shown (v : View) : bool := bool_decide (v_panel v <> None).

Definition format_enabled (v : View) : bool :=
  match v_panel v with Some p => negb (pv_format_disabled p) | None => false end.

Definition convert_enabled (v : View) : bool :=
  match v_panel v with Some p => negb (pv_convert_disabled p) | None => false end.

Definition download_shown (v : View) : bool :=
  match v_panel v with Some p => bool_decide (pv_download p <> None) | None => false end.

(** React re-renders after every update; a render that throws unmounts the
    whole tree (there is no error boundary). *)
Definition after_render (w : World) : World :=
  if crashed w then w
  else match render (app w) with
       | Some _ => with_app commit_refs w
       | None => mkWorld (app w) (pending w) (sent w) (browser w) true
       end.

Section Step.
Context `{api : ApiClient}.

(** A user event on the rendered page. *)
Definition ui (w : World) (guard : View -> bool) (h : World -> World) : option World :=
  if crashed w then None
  else match render (app w) with
       | Some v => if guard v then Some (after_render (h w)) else None
       | None => None
       end.

(** The delivery of the [i]-th completion in flight; updates of an
    unmounted tree are dropped. *)
Definition settle (w : World) (i : nat)
    (k : Pending -> option (AppState -> AppState)) : option World :=
  p ← pending w !! i;
  f ← k p;
  Some (after_render (mkWorld (if crashed w then app w else f (app w))
                        (delete i (pending w)) (sent w) (browser w) (crashed w))).

Definition step (w : World) (ev : Event) : option World :=
  match ev with
  | EvHealthSettled i n =>
      settle w i (fun p => match p with
        | PHealth => Some (checkBackendHealth_resume (axios_settle n))
        | _ => None end)
  | EvReadLoaded i =>
      settle w i (fun p => match p with
        | PRead file => Some (reader_onload file)
        | _ => None end)
  | EvConvertSettled i n =>
      settle w i (fun p => match p with
        | PConvert _ fmt => Some (handleConvert_resume fmt (axios_settle n))
        | _ => None end)
  | EvPick files =>
      (** the browser fires [change] only when the selection changed *)
      ui w (fun v => upload_shown v &&
                     negb (bool_decide (fileInput (app w) = Some (pick_value files))))
        (fun w => handleFileInputChange files
                    (with_app (setFileInput (Some (pick_value files))) w))
  | EvDragOver => ui w upload_shown handleDragOver
  | EvDragLeave => ui w upload_shown handleDragLeave
  | EvDrop files => ui w upload_shown (handleDrop files)
  | EvClickFormat f => ui w format_enabled (with_app (setTargetFormat f))
  | EvClickConvert => ui w convert_enabled handleConvert
  | EvClickDownload => ui w download_shown (fun w => with_browser (handleDownload (app w)) w)
  | EvClickReset => ui w panel_shown (with_app handleReset)
  end.

End Step.

(** ** Lemmas on the step *)

Lemma after_render_app w : exists v, app (after_render w) = setFileInput v (app w).
Proof.
  destruct w as [[sf pu tf st em cb cf hb dr fi] pe se br cr].
  unfold after_render; simpl.
  destruct cr; [by exists fi |]. destruct (render _); [| by exists fi].
  unfold commit_refs; simpl. destruct sf, fi; simpl; eexists; reflexivity.
Qed.

Lemma after_render_pending w : pending (after_render w) = pending w.
Proof. unfold after_render. by repeat case_match. Qed.

Lemma after_render_sent w : sent (after_render w) = sent w.
Proof. unfold after_render. by repeat case_match. Qed.

Lemma after_render_browser w : browser (after_render w) = browser w.
Proof. unfold after_render. by repeat case_match. Qed.

Lemma after_render_crashed w :
  crashed (after_render w) = crashed w || bool_decide (render (app w) = None).
Proof.
  unfold after_render. destruct (crashed w) eqn:E; [by rewrite E |].
  destruct (render (app w)); simpl; [by rewrite E | reflexivity].
Qed.


(** Read the fields of the page after React's re-render and commit. *)
Ltac after_render_simpl :=
  rewrite ?after_render_pending, ?after_render_sent, ?after_render_browser;
  match goal with
  | |- context [app (after_render ?w)] =>
      let E := fresh "E" in destruct (after_render_app w) as [? E]; rewrite E
  | _ => idtac
  end.

(** When the render throws: an error status whose message is a Blob. *)
Definition render_throws (s : AppState) : bool :=
  match selectedFile s, status s with
  | Some _, Error =>
      match js_or (errorMessage s) (JStr "Conversion failed") with
      | JBlob _ => true
      | _ => false
      end
  | _, _ => false
  end.

Lemma render_None s : render s = None <-> render_throws s = true.
Proof.
  unfold render, render_throws.
  destruct (selectedFile s); [| done].
  destruct (status s); simpl; try done.
  destruct (js_or (errorMessage s) (JStr "Conversion failed")); simpl; done.
Qed.

Lemma after_render_crashed' w :
  crashed (after_render w) = crashed w || render_throws (app w).
Proof.
  rewrite after_render_crashed. f_equal.
  destruct (render_throws (app w)) eqn:E.
  - apply render_None in E. by rewrite E.
  - apply bool_decide_eq_false. intros N. apply render_None in N. congruence.
Qed.

(** Everything the session shows or does, apart from the drag highlight and
    the value of the hidden input. *)
Definition session_of (w : World) :=
  (selectedFile (app w), previewUrl (app w), targetFormat (app w), status (app w),
   errorMessage (app w), convertedBlob (app w), convertedFilename (app w),
   isBackendHealthy (app w), pending w, sent w, browser w, crashed w).

Lemma session_of_after_render w :
  session_of (after_render w) =
  session_of (mkWorld (app w) (pending w) (sent w) (browser w)
                (crashed w || render_throws (app w))).
Proof.
  unfold session_of. rewrite after_render_crashed'. after_render_simpl.
  by destruct (app w).
Qed.

(** ** The browser side of a download *)

(** Object URLs and anchors in the page all have ids below [next_url]. *)
Definition browser_fresh (br : Browser) : Prop :=
  Forall (fun e => e.1 < next_url br) (object_urls br) /\
  Forall (fun a => a_href a < next_url br) (body br).

Lemma remove_first_app_fresh a l : a ∉ l -> remove_first a (l ++ [a]) = l.
Proof.
  induction l as [|x l IH]; intros Hn; simpl.
  - by rewrite decide_True.
  - rewrite decide_False by (intros ->; apply Hn; left).
    f_equal. apply IH. intros Hin. apply Hn. by right.
Qed.

Lemma revoke_fresh u (l : list (nat * Blob)) :
  Forall (fun e => e.1 < u) l ->
  filter (fun e => negb (Nat.eqb e.1 u)) l = l.
Proof.
  induction 1 as [|[v b] l Hv Hl IH]; [done |]. simpl in *.
  rewrite filter_cons_True; [by f_equal |].
  simpl. destruct (Nat.eqb_spec v u); [lia | done].
Qed.

(** Create, append, click, remove, revoke: the blob is saved under the
    anchor's name, and the URL and the anchor are gone again. *)
Lemma download_sequence_spec (b : Blob) (name : string) (br : Browser) :
  browser_fresh br ->
  (let '(url, br1) := createObjectURL b br in
   let a := mkAnchor url name in
   revokeObjectURL url (removeChild a (click a (appendChild a br1)))) =
  mkBrowser (object_urls br) (S (next_url br)) (body br) (downloads br ++ [(name, b)]).
Proof.
  intros [Hu Hb]. unfold createObjectURL, appendChild, click, removeChild,
    revokeObjectURL; simpl. rewrite Nat.eqb_refl. simpl.
  rewrite remove_first_app_fresh.
  - rewrite filter_cons_False; [by rewrite revoke_fresh |].
    simpl. rewrite Nat.eqb_refl. simpl. tauto.
  - intros Hin. rewrite Forall_forall in Hb. specialize (Hb _ Hin). simpl in Hb. lia.
Qed.

Lemma browser_fresh_after_download (b : Blob) (name : string) (br : Browser) :
  browser_fresh br ->
  browser_fresh (mkBrowser (object_urls br) (S (next_url br)) (body br)
                   (downloads br ++ [(name, b)])).
Proof.
  intros [Hu Hb]. split; simpl; eapply Forall_impl; eauto; simpl; lia.
Qed.

Section StepLemmas.
Context `{api : ApiClient}.

Lemma ui_Some w g h w' :
  ui w g h = Some w' <->
  crashed w = false /\ (exists v, render (app w) = Some v /\ g v = true) /\
  w' = after_render (h w).
Proof.
  unfold ui. split.
  - destruct (crashed w) eqn:C; [done |].
    destruct (render (app w)) as [v|] eqn:R; [| done].
    destruct (g v) eqn:G; [| done]. intros [= <-]. eauto 10.
  - intros (C & (v & R & G) & ->). by rewrite C, R, G.
Qed.

Lemma settle_Some w i k w' :
  settle w i k = Some w' <->
  exists p f, pending w !! i = Some p /\ k p = Some f /\
    w' = after_render (mkWorld (if crashed w then app w else f (app w))
                        (delete i (pending w)) (sent w) (browser w) (crashed w)).
Proof.
  unfold settle. split.
  - destruct (pending w !! i) as [p|] eqn:P; simpl; [| done].
    destruct (k p) as [f|] eqn:K; simpl; [| done]. intros [= <-].
    exists p, f. done.
  - intros (p & f & -> & Hk & ->). simpl. by rewrite Hk.
Qed.

(** The upload area is on the page exactly when no file is selected. *)
Lemma render_upload w v :
  render (app w) = Some v -> upload_shown v = true -> selectedFile (app w) = None.
Proof.
  intros R U. unfold render in R. destruct (selectedFile (app w)) as [f|]; [| done].
  exfalso. unfold upload_shown in U. apply bool_decide_eq_true in U.
  destruct (bool_decide (status (app w) = Error)); [destruct (render_text _)|];
    simpl in R; try discriminate; injection R as <-; by apply U.
Qed.

(** The controls of the panel, as the render computes them. *)
Lemma render_panel_controls s v p :
  render s = Some v -> v_panel v = Some p ->
  (exists f, selectedFile s = Some f) /\
  pv_format_disabled p = bool_decide (status s = Converting) /\
  pv_convert_disabled p = bool_decide (status s = Converting)
                          || negb (bool_decide (isBackendHealthy s = Some true)) /\
  pv_download p = (if bool_decide (status s = Success) && bool_decide (convertedBlob s <> None)
                   then Some ("Download " +++ to_upper_case (format_string (targetFormat s)))
                   else None) /\
  pv_error p = (if bool_decide (status s = Error)
                then render_text (js_or (errorMessage s) (JStr "Conversion failed"))
                else None).
Proof.
  unfold render. destruct (selectedFile s) as [f|]; [| by intros [= <-]].
  destruct (bool_decide (status s = Error)); [destruct (render_text _) eqn:T|];
    simpl; try discriminate; intros [= <-] [= <-]; simpl; eauto 10.
Qed.

Lemma render_selected s v f :
  render s = Some v -> selectedFile s = Some f -> exists p, v_panel v = Some p.
Proof.
  unfold render. intros R Hf. rewrite Hf in R.
  destruct (bool_decide (status s = Error)); [destruct (render_text _)|];
    simpl in R; try discriminate; injection R as <-; simpl; eauto.
Qed.

Lemma convert_enabled_inv s v :
  render s = Some v -> convert_enabled v = true ->
  (exists f, selectedFile s = Some f) /\ status s <> Converting /\
  isBackendHealthy s = Some true.
Proof.
  intros R. unfold convert_enabled. destruct (v_panel v) as [p|] eqn:P; [| done].
  destruct (render_panel_controls s v p R P) as (Hf & _ & -> & _).
  intros H. apply negb_true_iff, orb_false_iff in H as [H1 H2].
  apply bool_decide_eq_false in H1. apply negb_false_iff, bool_decide_eq_true in H2.
  auto.
Qed.
(** The converse: a panel for a selected file, not converting, with a
    healthy backend has the convert button enabled. *)
Lemma convert_enabled_of s v f :
  render s = Some v -> selectedFile s = Some f -> status s <> Converting ->
  isBackendHealthy s = Some true -> convert_enabled v = true.
Proof.
  intros R Hf Hs Hh. destruct (render_selected s v f R Hf) as [p P].
  destruct (render_panel_controls s v p R P) as (_ & _ & Hc & _).
  unfold convert_enabled. rewrite P, Hc, bool_decide_false, bool_decide_true by done.
  done.
Qed.
End StepLemmas.

(** Unfold a user event that happened into its three facts. *)
Ltac ui_inv H :=
  apply ui_Some in H as (?Hnc & (?v & ?Hr & ?Hg) & ->).

Section HandlerProperties.
Context `{api : ApiClient}.

(** C5. A file whose declared type does not start with [image/], picked
    in the file dialog, is rejected: the status becomes [error] with the
    message [Please select an image file], no file becomes selected and
    nothing is read or sent. *)
Theorem pick_rejects_non_image w f fs w' :
  starts_with (file_type f) "image/" = false ->
  step w (EvPick (f :: fs)) = Some w' ->
  status (app w') = Error /\
  errorMessage (app w') = JStr "Please select an image file" /\
  selectedFile (app w') = None /\ pending w' = pending w /\ sent w' = sent w.
Proof.
  intros Hf H. simpl in H. ui_inv H.
  apply andb_prop in Hg as [Hu _].
  pose proof (render_upload w v Hr Hu) as Hsel.
  unfold handleFileInputChange, handleFileSelect. rewrite Hf. simpl.
  after_render_simpl. simpl. by rewrite Hsel.
Qed.

(** C6. The picker and the drop target share one acceptance path: when
    picking files changes the page, dropping the same files is possible
    and leaves the session in the same state (same selected file,
    status, message, result, pending work and requests), the drag
    highlight and the input's value apart. *)
Theorem pick_drop_same w fs w1 :
  step w (EvPick fs) = Some w1 ->
  exists w2, step w (EvDrop fs) = Some w2 /\ session_of w2 = session_of w1.
Proof.
  intros H. simpl in H. ui_inv H. apply andb_prop in Hg as [Hu _].
  pose proof (render_upload w v Hr Hu) as Hsel.
  eexists. split.
  { simpl. unfold ui. by rewrite Hnc, Hr, Hu. }
  rewrite !session_of_after_render.
  destruct w as [[sf pu tf st em cb cf hb dr fi] pe se br cr]; simpl in *; subst.
  destruct fs as [|f fs]; [done |].
  unfold handleDrop, handleFileInputChange, handleFileSelect.
  by destruct (starts_with (file_type f) "image/").
Qed.

(** C7. A convert click: it needs a selected file, a healthy backend and
    a status other than [converting]; it sets the status to [converting],
    clears the message, sends POST /transform for the selected file and
    the current format, and records the completion with those captured
    values.  The previous result is not cleared. *)
Theorem convert_click w w' :
  step w EvClickConvert = Some w' ->
  exists f,
    selectedFile (app w) = Some f /\ isBackendHealthy (app w) = Some true /\
    status (app w) <> Converting /\
    status (app w') = Converting /\ errorMessage (app w') = JStr "" /\
    convertedBlob (app w') = convertedBlob (app w) /\
    pending w' = (pending w ++ [PConvert f (targetFormat (app w))])%list /\
    sent w' = (sent w ++ [api_transform_request f (format_string (targetFormat (app w)))])%list.
Proof.
  intros H. simpl in H. ui_inv H.
  destruct (convert_enabled_inv _ _ Hr Hg) as ([f Hf] & Hst & Hh).
  exists f. unfold handleConvert. rewrite Hf. after_render_simpl. simpl.
  by split_and!.
Qed.

(** C8. A conversion that succeeds: whichever of the completions in
    flight it is, its delivery sets the status to [success] and stores
    the converted blob and its filename; the page does not crash. *)
Theorem convert_settled_ok w i f fmt n t :
  crashed w = false ->
  pending w !! i = Some (PConvert f fmt) ->
  api_transform (format_string fmt) (axios_settle n) = inr t ->
  exists w', step w (EvConvertSettled i n) = Some w' /\
    status (app w') = Success /\ convertedBlob (app w') = Some (tr_data t) /\
    convertedFilename (app w') = tr_filename t /\
    pending w' = delete i (pending w) /\ crashed w' = false.
Proof.
  intros Hc Hp Ht. eexists. split.
  { simpl. apply settle_Some. eauto 10. }
  rewrite after_render_crashed', after_render_pending. after_render_simpl.
  simpl. rewrite Hc. unfold handleConvert_resume. rewrite Ht. simpl.
  unfold render_throws. simpl. by destruct (selectedFile (app w)).
Qed.

(** C9. A conversion that fails: the status becomes [error] with the
    message of line 90, and the result of an earlier conversion, if
    any, stays in place. *)
Theorem convert_settled_err w i f fmt n e :
  crashed w = false ->
  pending w !! i = Some (PConvert f fmt) ->
  api_transform (format_string fmt) (axios_settle n) = inl e ->
  exists w', step w (EvConvertSettled i n) = Some w' /\
    status (app w') = Error /\ errorMessage (app w') = conversion_error_message e /\
    convertedBlob (app w') = convertedBlob (app w) /\
    pending w' = delete i (pending w).
Proof.
  intros Hc Hp Ht. eexists. split.
  { simpl. apply settle_Some. eauto 10. }
  rewrite after_render_pending. after_render_simpl.
  simpl. rewrite Hc. unfold handleConvert_resume. rewrite Ht. done.
Qed.

(** C10. [Upload another]: the selected file, preview, message and
    result are cleared, the status is [idle], and the upload area comes
    back with a fresh, empty file input; work in flight is not
    cancelled. *)
Theorem reset_clears w w' :
  step w EvClickReset = Some w' ->
  selectedFile (app w') = None /\ previewUrl (app w') = None /\
  status (app w') = Idle /\ errorMessage (app w') = JStr "" /\
  convertedBlob (app w') = None /\ fileInput (app w') = Some "" /\
  pending w' = pending w /\ crashed w' = false.
Proof.
  intros H. simpl in H. ui_inv H.
  destruct w as [[sf pu tf st em cb cf hb dr fi] pe se br cr]; simpl in *; subst.
  unfold after_render, handleReset, render; simpl.
  by destruct fi.
Qed.

(** C11. A download click saves the converted blob under the converted
    filename, and the object URL it creates and the anchor it appends
    are both released again. *)
Theorem download_saves w w' :
  browser_fresh (browser w) ->
  step w EvClickDownload = Some w' ->
  exists b, status (app w) = Success /\ convertedBlob (app w) = Some b /\
    downloads (browser w') = (downloads (browser w) ++ [(convertedFilename (app w), b)])%list /\
    object_urls (browser w') = object_urls (browser w) /\
    body (browser w') = body (browser w) /\ browser_fresh (browser w').
Proof.
  intros Hf H. simpl in H. ui_inv H.
  unfold download_shown in Hg. destruct (v_panel v) as [p|] eqn:P; [| done].
  destruct (render_panel_controls _ _ _ Hr P) as (_ & _ & _ & Hd & _).
  rewrite Hd in Hg.
  destruct (bool_decide (status (app w) = Success)) eqn:S1; [| done].
  destruct (convertedBlob (app w)) as [b|] eqn:B; [| done].
  apply bool_decide_eq_true in S1.
  exists b. rewrite after_render_browser. simpl. unfold handleDownload. rewrite B.
  rewrite download_sequence_spec by done. simpl.
  split_and!; try done. by apply browser_fresh_after_download.
Qed.

(** C13. The message of a failed conversion (line 90): when the server
    answered (any non-2xx status), it is the response body, a Blob, not
    text; without a response it is the transport's message, or
    [Conversion failed] when that message is empty. *)
Theorem conversion_error_message_settle n e :
  axios_settle n = AxErr e ->
  conversion_error_message e =
  match n with
  | NetResponse r => JBlob (resp_body r)
  | NetFailure m => if String.eqb m "" then JStr "Conversion failed" else JStr m
  end.
Proof.
  destruct n as [r|m]; simpl.
  - destruct (validate_status (resp_status r)); [done |]. by intros [= <-].
  - intros [= <-]. unfold conversion_error_message, js_or; simpl.
    by destruct (String.eqb m "").
Qed.
(** C18. The preview is the picked file: delivering the [FileReader]
    completion of a file sets [previewUrl] to a [data:] URL from which
    the file's media type and every one of its bytes read back, and a
    panel rendered from that state shows exactly that URL. *)
Theorem preview_shows_file w i f :
  crashed w = false ->
  pending w !! i = Some (PRead f) ->
  str_forall (not_char ","%char) (data_url_type f) = true ->
  exists w' u, step w (EvReadLoaded i) = Some w' /\
    previewUrl (app w') = Some u /\
    parse_data_url u = Some (data_url_type f, file_bytes f) /\
    (forall v p, render (app w') = Some v -> v_panel v = Some p -> pv_preview p = Some u).
Proof.
  intros Hc Hp Ht. eexists _, (data_url f). split.
  { simpl. apply settle_Some. eauto 10. }
  after_render_simpl. simpl. rewrite Hc.
  split; [done |]. split; [by apply parse_data_url_data_url |].
  intros v p R P. change (render (reader_onload f (app w)) = Some v) in R.
  unfold render in R. simpl in R.
  destruct (selectedFile (app w)); [| by injection R as <-].
  destruct (bool_decide (status (app w) = Error)); [destruct (render_text _)|];
    simpl in R; try discriminate; injection R as <-; injection P as <-; done.
Qed.

(** C19. The size shown in the panel (line 176) is the file's size in KB
    rounded to hundredths: the text reads back as a decimal with two
    fraction digits worth [n] hundredths, where [n / 100] is within half a
    hundredth of [size / 1024], a tie rounding up. *)
Theorem file_size_text_rounding f :
  exists n, fixed2_value (file_size_text f) = Some n /\
    (100 * N.of_nat (file_size f) < 1024 * n + 512)%N /\
    (1024 * n <= 100 * N.of_nat (file_size f) + 512)%N.
Proof.
  exists (to_fixed2_n (N.of_nat (file_size f)) 1024).
  split; [apply fixed2_value_digits |].
  unfold to_fixed2_n. split; n_divmod.
Qed.

(** C21. A rejected file cannot be picked again straight away: the
    rejection leaves the picker's value on that file, so choosing the same
    file once more changes nothing in the input, the browser fires no
    [change] event and the page does not react. *)
Theorem repick_rejected_ignored w f fs w' :
  starts_with (file_type f) "image/" = false ->
  step w (EvPick (f :: fs)) = Some w' -> step w' (EvPick (f :: fs)) = None.
Proof.
  intros Hf H. simpl in H. ui_inv H.
  apply andb_prop in Hg as [Hu _].
  pose proof (render_upload w v Hr Hu) as Hsel.
  unfold handleFileInputChange, handleFileSelect. rewrite Hf. simpl.
  set (X := with_app _ _).
  assert (E : after_render X = X).
  { unfold after_render. simpl. rewrite Hnc. unfold render. simpl. rewrite Hsel.
    unfold with_app, commit_refs. simpl. by rewrite Hsel. }
  rewrite E. unfold ui. simpl. rewrite Hnc.
  destruct (render (setStatus _ _)); [| done].
  rewrite bool_decide_true by done. by rewrite andb_false_r.
Qed.

(** C24. The validation error is never shown: after a picked file is
    rejected the page is still mounted with status [error], but it renders
    the upload area and no conversion panel, the only place where the
    error text is rendered. *)
Theorem validation_error_not_rendered w f fs w' :
  starts_with (file_type f) "image/" = false ->
  step w (EvPick (f :: fs)) = Some w' ->
  crashed w' = false /\ status (app w') = Error /\
  exists v, render (app w') = Some v /\ v_panel v = None /\ v_upload_area v <> None.
Proof.
  intros Hf H. simpl in H. ui_inv H.
  apply andb_prop in Hg as [Hu _].
  pose proof (render_upload w v Hr Hu) as Hsel.
  unfold handleFileInputChange, handleFileSelect. rewrite Hf. simpl.
  rewrite after_render_crashed'. after_render_simpl. simpl. rewrite Hnc.
  unfold render_throws, render. simpl. rewrite Hsel. split_and!; [done | done |].
  by eexists.
Qed.

(** C26. The download label follows the format buttons, not the
    conversion: on a page showing a successful conversion, clicking a
    format relabels the download button with that format while the blob
    and the filename it saves stay those of the conversion. *)
Theorem download_label_mismatch w fmt b w' v p :
  status (app w) = Success -> convertedBlob (app w) = Some b ->
  step w (EvClickFormat fmt) = Some w' ->
  render (app w') = Some v -> v_panel v = Some p ->
  pv_download p = Some ("Download " +++ to_upper_case (format_string fmt)) /\
  convertedBlob (app w') = Some b /\ convertedFilename (app w') = convertedFilename (app w).
Proof.
  intros Hs Hb H. simpl in H. ui_inv H. after_render_simpl.
  intros R P. destruct (render_panel_controls _ _ _ R P) as (_ & _ & _ & -> & _).
  simpl. rewrite Hs, Hb, !bool_decide_true by done. done.
Qed.
End HandlerProperties.

(** C25. A server error with a body crashes the page: with
    [responseType: 'blob'] the body of any response outside 2xx is a
    Blob, so [error.response?.data] is truthy and becomes [errorMessage];
    while a file is selected, rendering it as a React child throws, which
    unmounts the component. *)
Theorem server_error_crashes w i f fmt r :
  crashed w = false -> selectedFile (app w) <> None ->
  pending w !! i = Some (PConvert f fmt) ->
  validate_status (resp_status r) = false ->
  exists w', step (api := fileApi) w (EvConvertSettled i (NetResponse r)) = Some w' /\
    status (app w') = Error /\ errorMessage (app w') = JBlob (resp_body r) /\ crashed w' = true.
Proof.
  intros Hc Hsel Hp Hv. eexists. split.
  { simpl. apply settle_Some. eauto 10. }
  rewrite after_render_crashed'. after_render_simpl. simpl. rewrite Hc.
  unfold handleConvert_resume. simpl. rewrite Hv. simpl.
  unfold render_throws. simpl.
  destruct (selectedFile (app w)); [done | congruence].
Qed.
