(* ===== verification/Session.v ===== *)
(** * Whole sessions: reachable pages and what holds on all of them

    [reachable] closes the mount under [step]: every interleaving of user
    events on the rendered page and deliveries of completions in flight.
    This file proves, against the client boundary [ApiClientSpec] only,
    the invariant every reachable page satisfies ([reachable_inv]), the
    request log of every run ([requests_sent]), that only images are
    uploaded ([typed], and [sent_requests_wire] for [fileApi]), that a
    failed conversion can be retried and an offered one completed; it ends
    with the concrete pages, reached with the real client [fileApi], at
    which the theorems with hypotheses are instantiated. *)

From stdpp Require Import base list strings options gmap.
From Stdlib Require Import String.
From S2P Require Import Prelude JsRuntime Regex DataUrl Http FileApi Controller.

Open Scope string_scope.
Open Scope ft_scope.

(** ** Sessions *)

Section Runs.
Context `{api : ApiClient}.

(** A run of events from a page; [None] when one of them cannot happen. *)
Fixpoint run (w : World) (evs : list Event) : option World :=
  match evs with
  | [] => Some w
  | ev :: evs' => w' ← step w ev; run w' evs'
  end.

(** The pages the session can reach from the mount. *)
Inductive reachable : World -> Prop :=
| reach_init : reachable initial_world
| reach_step w ev w' : reachable w -> step w ev = Some w' -> reachable w'.
End Runs.

(** ** The invariant *)

(** The part about the component's state and the work in flight. *)
Definition inv_core (s : AppState) (ps : list Pending) (c : bool) : Prop :=
  (status s = Success -> convertedBlob s <> None) /\
  (convertedBlob s <> None -> convertedFilename s <> "") /\
  (c = false -> status s = Converting -> exists f fmt, PConvert f fmt ∈ ps).

(** While mounted, the page renders, and the file input is mounted exactly
    when no file is selected; the browser holds no object URL and no
    anchor of ours. *)
Definition session_inv (w : World) : Prop :=
  inv_core (app w) (pending w) (crashed w) /\
  (crashed w = false ->
     render_throws (app w) = false /\
     (fileInput (app w) = None <-> selectedFile (app w) <> None)) /\
  object_urls (browser w) = [] /\ body (browser w) = [].

Lemma elem_of_delete_other {A} (x y : A) (l : list A) i :
  x ∈ l -> l !! i = Some y -> x <> y -> x ∈ delete i l.
Proof.
  revert i; induction l as [|z l IH]; intros i Hx Hi Hne; [by inversion Hx |].
  destruct i as [|i]; simpl in *.
  - injection Hi as ->. by apply elem_of_cons in Hx as [?|?].
  - apply elem_of_cons in Hx as [->|Hx]; [left | right; eauto].
Qed.

Lemma inv_core_after_render X :
  inv_core (app X) (pending X) (crashed X) ->
  inv_core (app (after_render X)) (pending (after_render X)) (crashed (after_render X)).
Proof.
  intros (Ha & Hb & Hc). rewrite after_render_pending, after_render_crashed'.
  destruct (after_render_app X) as [v ->]. simpl.
  split_and!; auto. intros Hcr. apply orb_false_iff in Hcr as [Hcr _]. auto.
Qed.

Lemma after_render_mounted X :
  crashed (after_render X) = false ->
  render_throws (app (after_render X)) = false /\
  (fileInput (app (after_render X)) = None <-> selectedFile (app (after_render X)) <> None).
Proof.
  rewrite after_render_crashed'. intros [Hc Ht]%orb_false_iff.
  unfold after_render. rewrite Hc.
  destruct (render (app X)) eqn:R; [| by apply render_None in R; congruence].
  destruct X as [[sf pu tf st em cb cf hb dr fi] pe se br cr]; simpl in *.
  unfold commit_refs; simpl.
  destruct sf, fi; simpl; split; try done; split; congruence.
Qed.

Section Invariant.
Context `{api : ApiClient} (HS : ApiClientSpec api).

(** An update that leaves status, result and filename alone. *)
Lemma inv_core_frame f s ps ps' c :
  status (f s) = status s -> convertedBlob (f s) = convertedBlob s ->
  convertedFilename (f s) = convertedFilename s ->
  (forall g fmt, PConvert g fmt ∈ ps -> PConvert g fmt ∈ ps') ->
  inv_core s ps c -> inv_core (f s) ps' c.
Proof.
  intros Hs Hb Hf Hps (Ha & Hb' & Hc). unfold inv_core.
  rewrite Hs, Hb, Hf. split_and!; auto.
  intros Hcr Hconv. destruct (Hc Hcr Hconv) as (? & ? & ?). eauto.
Qed.

Lemma inv_core_crashed s ps ps' : inv_core s ps true -> inv_core s ps' true.
Proof. intros (Ha & Hb & _). split_and!; auto. done. Qed.

Lemma handleFileSelect_core f w :
  inv_core (app w) (pending w) false ->
  inv_core (app (handleFileSelect f w)) (pending (handleFileSelect f w)) false /\
  browser (handleFileSelect f w) = browser w /\
  crashed (handleFileSelect f w) = crashed w.
Proof.
  intros (Ha & Hb & Hc). unfold handleFileSelect.
  destruct (starts_with (file_type f) "image/"); simpl; split_and!; try done;
    unfold inv_core; simpl; split_and!; try done; auto.
Qed.

Lemma handleConvert_core w :
  inv_core (app w) (pending w) false ->
  inv_core (app (handleConvert w)) (pending (handleConvert w)) false /\
  browser (handleConvert w) = browser w /\ crashed (handleConvert w) = crashed w.
Proof.
  intros (Ha & Hb & Hc). unfold handleConvert.
  destruct (selectedFile (app w)) as [f|]; [| by split_and!].
  simpl. split_and!; [| done | done]. unfold inv_core; simpl. split_and!; try done.
  intros _ _. eexists _, _. apply elem_of_app. right. by left.
Qed.

Lemma resume_core fmt o s ps ps' :
  inv_core s ps false -> inv_core (handleConvert_resume fmt o s) ps' false.
Proof using HS.
  intros (Ha & Hb & Hc). unfold handleConvert_resume.
  destruct (api_transform (format_string fmt) o) as [e|t] eqn:T.
  - unfold inv_core; simpl. split_and!; try done; auto.
  - destruct (api_transform_ok _ _ _ T) as (r & _ & _ & Hn).
    unfold inv_core; simpl. split_and!; try done; auto.
Qed.

Lemma handleReset_core s ps c : inv_core (handleReset s) ps c.
Proof.
  unfold handleReset. destruct (fileInput s); unfold inv_core; simpl; split_and!; done.
Qed.

Lemma delete_keeps_convert (ps : list Pending) i p :
  ps !! i = Some p -> (forall g fmt, p <> PConvert g fmt) ->
  forall g fmt, PConvert g fmt ∈ ps -> PConvert g fmt ∈ delete i ps.
Proof. intros Hp Hn g fmt Hin. eapply elem_of_delete_other; eauto. Qed.

(** A handler that only touches the drag flag, the format or the input. *)
Ltac frame_ui Hcore Hnc Hu Hb :=
  simpl; rewrite ?Hnc, ?Hu, ?Hb; split_and!; [exact Hcore | done | done].

(** A handler that runs [handleFileSelect]. *)
Ltac select_ui Hcore Hnc Hu Hb :=
  match goal with
  | |- context [handleFileSelect ?f ?w0] =>
      destruct (handleFileSelect_core f w0 Hcore) as (H1 & -> & ->);
      simpl in H1 |- *; rewrite Hnc; by rewrite Hu, Hb
  end.

(** What a step does before React's re-render: the invariant's core holds
    and the browser is left clean. *)
Lemma step_pre_render w ev w' :
  session_inv w -> step w ev = Some w' ->
  exists X, w' = after_render X /\ inv_core (app X) (pending X) (crashed X) /\
    object_urls (browser X) = [] /\ body (browser X) = [].
Proof using HS.
  intros (Hcore & _ & Hu & Hb) H. destruct ev; simpl in H.
  1-3: apply settle_Some in H as (p & f & Hp & Hk & ->);
    eexists; split; [reflexivity |]; simpl; split_and!; try done;
    destruct (crashed w) eqn:C; [by eapply inv_core_crashed |];
    destruct p; simplify_eq/=.
  1-2: eapply inv_core_frame; [done | done | done | | done];
    eapply delete_keeps_convert; [done | done].
  1: by eapply resume_core.
  all: apply ui_Some in H as (Hnc & _ & ->); rewrite Hnc in Hcore;
    eexists; split; [reflexivity |].
  - destruct files as [|f files]; simpl; [frame_ui Hcore Hnc Hu Hb | select_ui Hcore Hnc Hu Hb].
  - frame_ui Hcore Hnc Hu Hb.
  - frame_ui Hcore Hnc Hu Hb.
  - unfold handleDrop.
    destruct files as [|f files]; [frame_ui Hcore Hnc Hu Hb | select_ui Hcore Hnc Hu Hb].
  - frame_ui Hcore Hnc Hu Hb.
  - destruct (handleConvert_core w Hcore) as (H1 & -> & ->). rewrite Hnc. auto.
  - simpl. rewrite Hnc. unfold handleDownload.
    destruct (convertedBlob (app w)); [| done].
    rewrite download_sequence_spec; [by simpl | unfold browser_fresh; rewrite Hu, Hb; split; constructor].
  - simpl. rewrite Hnc. split_and!; try done. apply handleReset_core.
Qed.

Lemma step_inv w ev w' : session_inv w -> step w ev = Some w' -> session_inv w'.
Proof using HS.
  intros I H. destruct (step_pre_render w ev w' I H) as (X & -> & HX & Hu & Hb).
  split_and!.
  - by apply inv_core_after_render.
  - apply after_render_mounted.
  - by rewrite after_render_browser.
  - by rewrite after_render_browser.
Qed.

Lemma initial_inv : session_inv initial_world.
Proof.
  unfold initial_world, session_inv, inv_core. simpl.
  split_and!; done.
Qed.

(** Rule induction over [reachable]. *)
Lemma reachable_session_inv w : reachable w -> session_inv w.
Proof using HS.
  induction 1 as [|w ev w' _ IH Hs]; [apply initial_inv | by eapply step_inv].
Qed.

(** C1. The invariant of every reachable page, whatever the order in
    which the user acts and completions arrive, for any client that
    keeps the [ApiClientSpec] promises: a [success] status always comes
    with a converted blob, a stored blob always has a non-empty filename,
    a [converting] status (while mounted) always has its conversion in
    flight, the mounted page always renders, the file input is mounted
    exactly when no file is selected, and no object URL or anchor is
    left behind by downloads. *)
Theorem reachable_inv w : reachable w -> session_inv w.
Proof using HS. apply reachable_session_inv. Qed.
End Invariant.

#[export] Hint Constructors reachable : ft.

Lemma run_reachable `{api : ApiClient} w evs w' :
  reachable w -> run w evs = Some w' -> reachable w'.
Proof.
  revert w; induction evs as [|ev evs IH]; intros w Hr H; simpl in H.
  - by injection H as <-.
  - destruct (step w ev) as [w1|] eqn:S; [| done]. apply (IH w1); [eauto with ft | exact H].
Qed.

Section Requests.
Context `{api : ApiClient}.

(** The requests of the conversions started so far. *)
Definition transform_requests (convs : list (File * Format)) : list HttpRequest :=
  map (fun '(f, fmt) => api_transform_request f (format_string fmt)) convs.

(** The request log explains the page: the health check first, then one
    transform request per conversion started, and every conversion in
    flight is one of them. *)
Definition requests_explained (w : World) : Prop :=
  exists convs,
    sent w = api_health_request :: transform_requests convs /\
    forall f fmt, PConvert f fmt ∈ pending w -> (f, fmt) ∈ convs.

Lemma elem_of_delete {A} (x : A) (l : list A) i : x ∈ delete i l -> x ∈ l.
Proof.
  revert i; induction l as [|y l IH]; intros [|i] Hx; simpl in *; try done.
  - by right.
  - apply elem_of_cons in Hx as [->|Hx]; [left | right; eauto].
Qed.

Lemma handleFileSelect_requests f w :
  sent (handleFileSelect f w) = sent w /\
  forall g fmt, PConvert g fmt ∈ pending (handleFileSelect f w) -> PConvert g fmt ∈ pending w.
Proof.
  unfold handleFileSelect. destruct (starts_with (file_type f) "image/"); simpl;
    split; try done.
  intros g fmt Hin. apply elem_of_app in Hin as [?|Hin]; [done |].
  apply list_elem_of_singleton in Hin. discriminate.
Qed.

Lemma step_requests w ev w' :
  requests_explained w -> step w ev = Some w' -> requests_explained w'.
Proof.
  intros (convs & Hs & Hp) H.
  destruct ev; simpl in H.
  1-3: apply settle_Some in H as (p & f & _ & _ & ->); exists convs;
    rewrite after_render_sent, after_render_pending; simpl;
    split; [done | intros g fmt Hin; apply Hp; exact (elem_of_delete _ _ _ Hin)].
  all: ui_inv H; unfold requests_explained; rewrite ?after_render_sent, ?after_render_pending.
  all: try (exists convs; simpl; split; [done | done]).
  - destruct files as [|f files]; [exists convs; split; [exact Hs | exact Hp] |].
    change (handleFileInputChange (f :: files) ?x) with (handleFileSelect f x).
    destruct (handleFileSelect_requests f (with_app (setFileInput (Some (pick_value (f :: files)))) w))
      as [-> Hf].
    exists convs. split; [done | intros g fmt Hin; apply Hp, Hf, Hin].
  - unfold handleDrop. destruct files as [|f files]; [exists convs; split; [exact Hs | exact Hp] |].
    destruct (handleFileSelect_requests f (with_app (setIsDragging false) w)) as [-> Hf].
    exists convs. split; [done | intros g fmt Hin; apply Hp, Hf, Hin].
  - unfold handleConvert. destruct (selectedFile (app w)) as [f|]; [| by exists convs].
    exists (convs ++ [(f, targetFormat (app w))])%list. simpl. split.
    + rewrite Hs. unfold transform_requests. by rewrite map_app.
    + intros g fmt Hin. apply elem_of_app in Hin as [Hin|Hin].
      * apply elem_of_app. left. by apply Hp.
      * apply list_elem_of_singleton in Hin. injection Hin as -> ->.
        apply elem_of_app. right. by left.
Qed.

(** A click on the convert button. *)
Definition is_convert_click (ev : Event) : bool :=
  match ev with EvClickConvert => true | _ => false end.

Definition convert_clicks (evs : list Event) : nat :=
  List.length (List.filter is_convert_click evs).

(** Each step sends one request exactly when it is a convert click. *)
Lemma step_sent_length w ev w' :
  step w ev = Some w' ->
  List.length (sent w') = List.length (sent w) + (if is_convert_click ev then 1 else 0).
Proof.
  intros H. destruct ev; simpl in H.
  1-3: apply settle_Some in H as (p & f & _ & _ & ->); rewrite after_render_sent; simpl; lia.
  all: ui_inv H; rewrite after_render_sent; simpl.
  all: try lia.
  - destruct files as [|f files]; [simpl; lia |].
    change (handleFileInputChange (f :: files) ?x) with (handleFileSelect f x).
    rewrite (proj1 (handleFileSelect_requests _ _)). simpl. lia.
  - unfold handleDrop. destruct files as [|f files]; [simpl; lia |].
    rewrite (proj1 (handleFileSelect_requests _ _)). simpl. lia.
  - destruct (convert_enabled_inv _ _ Hr Hg) as ([f Hf] & _ & _).
    unfold handleConvert. rewrite Hf. simpl. rewrite length_app. simpl. lia.
Qed.

Lemma run_requests w evs w' :
  requests_explained w -> run w evs = Some w' ->
  requests_explained w' /\
  List.length (sent w') = List.length (sent w) + convert_clicks evs.
Proof.
  revert w; induction evs as [|ev evs IH]; intros w Hw H; simpl in H.
  - injection H as <-. split; [done | unfold convert_clicks; simpl; lia].
  - destruct (step w ev) as [w1|] eqn:S; [| done].
    destruct (IH w1 (step_requests w ev w1 Hw S) H) as [Hw' L].
    split; [done |]. rewrite L, (step_sent_length _ _ _ S).
    unfold convert_clicks. simpl. destruct (is_convert_click ev); simpl; lia.
Qed.

(** C15. The request log of a session: after any run of events from the
    mount, the requests sent are the one health check of the mount,
    first, followed by transform requests only, exactly one per convert
    click of the run (nothing is sent twice, re-polled or retried by
    itself), and every conversion still in flight is one of them. *)
Theorem requests_sent evs w :
  run initial_world evs = Some w ->
  requests_explained w /\ List.length (sent w) = S (convert_clicks evs).
Proof.
  intros H. apply (run_requests initial_world) in H as [Hw L]; [split; [done | exact L] |].
  exists []. split; [done |]. intros f fmt Hin. simpl in Hin.
  apply list_elem_of_singleton in Hin. discriminate.
Qed.
End Requests.

(** ** Only images leave the page *)

Section Typed.
Context `{api : ApiClient}.

Definition image_file (f : File) : Prop := starts_with (file_type f) "image/" = true.

(** The health check, or the transform request of an image. *)
Definition request_typed (r : HttpRequest) : Prop :=
  r = api_health_request \/
  exists f fmt, image_file f /\ r = api_transform_request f (format_string fmt).

(** The selected file is an image and so is every file sent. *)
Definition typed (w : World) : Prop :=
  (forall f, selectedFile (app w) = Some f -> image_file f) /\ Forall request_typed (sent w).

Lemma typed_after_render w : typed w -> typed (after_render w).
Proof.
  intros [Hs Hr]. destruct (after_render_app w) as [v E].
  split; [rewrite E; exact Hs | by rewrite after_render_sent].
Qed.

(** A step that keeps or clears the selection and sends nothing. *)
Lemma typed_frame w w' :
  selectedFile (app w') = selectedFile (app w) \/ selectedFile (app w') = None ->
  sent w' = sent w -> typed w -> typed w'.
Proof.
  intros [E|E] Es [Hs Hr]; (split; [intros f Hf | by rewrite Es]).
  - rewrite E in Hf. by apply Hs.
  - congruence.
Qed.

Lemma handleFileSelect_typed f w : typed w -> typed (handleFileSelect f w).
Proof.
  intros T. unfold handleFileSelect.
  destruct (starts_with (file_type f) "image/") eqn:I; simpl.
  - destruct T as [_ Hr]. split; [| done]. intros g [= <-]. exact I.
  - by apply (typed_frame w); [left | |].
Qed.

Lemma handleConvert_typed w : typed w -> typed (handleConvert w).
Proof.
  intros [Hs Hr]. unfold handleConvert.
  destruct (selectedFile (app w)) as [f|] eqn:F.
  - split; simpl.
    + intros g Hg. rewrite F in Hg. by apply Hs.
    + apply Forall_app. split; [done |]. constructor; [| done].
      right. exists f, (targetFormat (app w)). split; [by apply Hs | done].
  - split; [intros g Hg; congruence | done].
Qed.

Lemma step_typed w ev w' : typed w -> step w ev = Some w' -> typed w'.
Proof.
  intros T H. destruct ev; simpl in H.
  1-3: apply settle_Some in H as (p & k & _ & Hk & ->); apply typed_after_render;
    apply (typed_frame w); [left | done | done]; simpl;
    destruct (crashed w); [done |]; destruct p; simplify_eq/=; try done;
    unfold handleConvert_resume; by destruct (api_transform _ _).
  all: ui_inv H; apply typed_after_render.
  - destruct files as [|f files]; [done |]. by apply handleFileSelect_typed.
  - done.
  - done.
  - unfold handleDrop. destruct files as [|f files]; [| apply handleFileSelect_typed];
      by apply (typed_frame w); [left | |].
  - by apply (typed_frame w); [left | |].
  - by apply handleConvert_typed.
  - done.
  - apply (typed_frame w); [right | done | done]. unfold handleReset. simpl.
    by destruct (fileInput (app w)).
Qed.

Lemma reachable_typed w : reachable w -> typed w.
Proof.
  induction 1 as [|w ev w' _ IH Hs].
  - split; [done |]. constructor; [by left | done].
  - by eapply step_typed.
Qed.
End Typed.

(** ** A conversion can always be completed *)

Section Liveness.
Context `{api : ApiClient} (HS : ApiClientSpec api).

(** The page renders a view whenever it is mounted. *)
Lemma reachable_renders w :
  reachable w -> crashed w = false -> exists v, render (app w) = Some v.
Proof using HS.
  intros R Hc. destruct (reachable_session_inv HS w R) as (_ & Hm & _).
  destruct (Hm Hc) as [Ht _].
  destruct (render (app w)) as [v|] eqn:E; [by exists v |].
  apply render_None in E. congruence.
Qed.

(** C22. Liveness of a conversion: on any reachable page where a file is
    selected, the backend is known healthy and no conversion is running,
    the user can click convert, and the delivery of that request's
    completion with a response the client accepts ends in [success] with
    the converted blob and its name stored, on a page that is still
    mounted. *)
Theorem conversion_completes w f n t :
  reachable w -> crashed w = false ->
  selectedFile (app w) = Some f -> isBackendHealthy (app w) = Some true ->
  status (app w) <> Converting ->
  api_transform (format_string (targetFormat (app w))) (axios_settle n) = inr t ->
  exists w', run w [EvClickConvert; EvConvertSettled (List.length (pending w)) n] = Some w' /\
    status (app w') = Success /\ convertedBlob (app w') = Some (tr_data t) /\
    convertedFilename (app w') = tr_filename t /\ crashed w' = false.
Proof using HS.
  intros R Hc Hf Hh Hs Ht. destruct (reachable_renders w R Hc) as [v Hv].
  set (X := handleConvert w).
  assert (S1 : step w EvClickConvert = Some (after_render X)).
  { apply ui_Some. split_and!; [done | | done]. exists v. split; [done |].
    by eapply convert_enabled_of. }
  assert (HX : crashed (after_render X) = false).
  { rewrite after_render_crashed'. unfold X, handleConvert. rewrite Hf. simpl.
    rewrite Hc. unfold render_throws. simpl. by rewrite Hf. }
  assert (P : pending (after_render X) !! List.length (pending w) =
              Some (PConvert f (targetFormat (app w)))).
  { rewrite after_render_pending. unfold X, handleConvert. rewrite Hf. simpl.
    by apply list_lookup_middle. }
  cbn [run]. rewrite S1. simpl. unfold settle. rewrite P. simpl. rewrite HX.
  eexists. split; [reflexivity |].
  rewrite after_render_crashed'. after_render_simpl. simpl.
  unfold handleConvert_resume. destruct (after_render_app X) as [u Eu]. rewrite ?Eu.
  unfold X, handleConvert. rewrite Hf. simpl. rewrite Ht. simpl.
  split_and!; try done. unfold render_throws. simpl. by rewrite Hf.
Qed.
End Liveness.

Section Wire.
#[local] Existing Instance fileApi.

(** A request of the backend's contract: [GET /health], or [POST
    /transform?to=png|jpg] with one multipart part [file] holding an image
    and a blob response. *)
Definition wire_ok (r : HttpRequest) : Prop :=
  r = mkRequest GET (API_BASE_URL +++ "/health") [] None RTJson \/
  exists f fmt, starts_with (file_type f) "image/" = true /\ (fmt = "png" \/ fmt = "jpg") /\
    r = mkRequest POST (API_BASE_URL +++ "/transform?to=" +++ fmt) [("file", f)]
          (Some "multipart/form-data") RTBlob.

(** C20. Only well-formed requests reach the backend: on every reachable
    page each request sent by [fileApi] is the health check or a transform
    request whose target is [png] or [jpg] and whose one part, [file], is
    a file declared as [image/...]; a file that fails the type check is
    never uploaded. *)
Theorem sent_requests_wire w : reachable w -> Forall wire_ok (sent w).
Proof.
  intros R. destruct (reachable_typed w R) as [_ Hr].
  eapply Forall_impl; [exact Hr |]. intros r [->|(f & fmt & I & ->)]; [by left | right].
  exists f, (format_string fmt). split_and!; [done | by destruct fmt; [left | right] | done].
Qed.
End Wire.

Section Retry.
Context `{api : ApiClient} (HS : ApiClientSpec api).

(** C12. Failures are not sticky: on any reachable page showing a failed
    conversion of a selected file, with the backend healthy, the convert
    button is enabled again and a click starts a new conversion, with no
    back-off and no limit. *)
Theorem retry_after_error w f :
  reachable w -> crashed w = false -> status (app w) = Error ->
  selectedFile (app w) = Some f -> isBackendHealthy (app w) = Some true ->
  exists w', step w EvClickConvert = Some w' /\ status (app w') = Converting.
Proof using HS.
  intros R Hc Hs Hf Hh. destruct (reachable_renders HS w R Hc) as [v Rv].
  eexists. split.
  - simpl. apply ui_Some. split_and!; [done | | done].
    exists v. split; [done |]. eapply convert_enabled_of; [done | done | congruence | done].
  - unfold handleConvert. rewrite Hf. after_render_simpl. done.
Qed.
End Retry.

(** ** Test files and server answers *)

Section Sessions.
#[local] Existing Instance fileApi.

Definition photo : File := mkFile "photo.jpg" "image/jpeg" (repeat Byte.x00 2048).
Definition cat : File := mkFile "cat.png" "image/png" [Byte.x89; Byte.x50].
Definition notes : File := mkFile "notes.txt" "text/plain" [Byte.x68; Byte.x69].

Definition health_ok : NetResult :=
  NetResponse (mkResponse 200 ∅ (mkBlob [] "application/json")).

(** 200 with a PNG body and no [Content-Disposition] header, so the
    result is named by the fallback. *)
Definition png_ok : NetResult :=
  NetResponse (mkResponse 200 ∅ (mkBlob [Byte.x89; Byte.x50; Byte.x4e; Byte.x47] "image/png")).

(** 500 with a plain-text body. *)
Definition server_error : NetResult :=
  NetResponse (mkResponse 500 ∅ (mkBlob (list_byte_of_string "decode failed") "text/plain")).

End Sessions.

(** ** The handler theorems at concrete pages *)

Section Witnesses.
#[local] Existing Instance fileApi.

Definition after (evs : list Event) : World :=
  default initial_world (run initial_world evs).

Definition w_ready : World := Eval vm_compute in after [EvHealthSettled 0 health_ok].
Definition w_notes : World := Eval vm_compute in after [EvHealthSettled 0 health_ok; EvPick [notes]].
Definition w_photo : World := Eval vm_compute in after [EvHealthSettled 0 health_ok; EvPick [photo]].
Definition w_unknown : World := Eval vm_compute in after [EvPick [photo]].
Definition w_conv : World := Eval vm_compute in
  after [EvHealthSettled 0 health_ok; EvPick [photo]; EvClickConvert].
Definition w_reset : World := Eval vm_compute in
  after [EvHealthSettled 0 health_ok; EvPick [photo]; EvClickConvert; EvClickReset].
Definition w_done : World := Eval vm_compute in
  after [EvHealthSettled 0 health_ok; EvPick [photo]; EvClickConvert;
         EvConvertSettled 1 png_ok].
Definition w_saved : World := Eval vm_compute in
  after [EvHealthSettled 0 health_ok; EvPick [photo]; EvClickConvert;
         EvConvertSettled 1 png_ok; EvClickDownload].
Definition w_neterr : World := Eval vm_compute in
  after [EvHealthSettled 0 health_ok; EvPick [photo]; EvClickConvert;
         EvConvertSettled 1 (NetFailure "Network Error")].

Lemma w_neterr_reachable : reachable w_neterr.
Proof.
  apply (run_reachable initial_world
           [EvHealthSettled 0 health_ok; EvPick [photo]; EvClickConvert;
            EvConvertSettled 1 (NetFailure "Network Error")]);
    [constructor | vm_compute; reflexivity].
Qed.

Lemma reachable_inv_witness : reachable w_neterr /\ session_inv w_neterr.
Proof.
  split; [exact w_neterr_reachable |].
  exact (reachable_inv fileApi_spec w_neterr w_neterr_reachable).
Defined.

Lemma requests_sent_witness :
  requests_explained w_neterr /\
  List.length (sent w_neterr) =
    S (convert_clicks [EvHealthSettled 0 health_ok; EvPick [photo]; EvClickConvert;
                       EvConvertSettled 1 (NetFailure "Network Error")]).
Proof.
  apply requests_sent. vm_compute. reflexivity.
Defined.

Lemma pick_rejects_non_image_witness :
  step w_ready (EvPick [notes]) = Some w_notes /\
  status (app w_notes) = Error /\
  errorMessage (app w_notes) = JStr "Please select an image file" /\
  selectedFile (app w_notes) = None /\ pending w_notes = pending w_ready /\
  sent w_notes = sent w_ready.
Proof.
  assert (H : step w_ready (EvPick [notes]) = Some w_notes) by (vm_compute; reflexivity).
  split; [exact H |].
  exact (pick_rejects_non_image w_ready notes [] w_notes eq_refl H).
Defined.

Lemma pick_drop_same_witness :
  step w_ready (EvPick [photo]) = Some w_photo /\
  exists w2, step w_ready (EvDrop [photo]) = Some w2 /\ session_of w2 = session_of w_photo.
Proof.
  assert (H : step w_ready (EvPick [photo]) = Some w_photo) by (vm_compute; reflexivity).
  split; [exact H |]. exact (pick_drop_same w_ready [photo] w_photo H).
Defined.

Lemma convert_click_witness :
  step w_photo EvClickConvert = Some w_conv /\
  exists f,
    selectedFile (app w_photo) = Some f /\ isBackendHealthy (app w_photo) = Some true /\
    status (app w_photo) <> Converting /\
    status (app w_conv) = Converting /\ errorMessage (app w_conv) = JStr "" /\
    convertedBlob (app w_conv) = convertedBlob (app w_photo) /\
    pending w_conv = (pending w_photo ++ [PConvert f (targetFormat (app w_photo))])%list /\
    sent w_conv = (sent w_photo ++
      [api_transform_request f (format_string (targetFormat (app w_photo)))])%list.
Proof.
  assert (H : step w_photo EvClickConvert = Some w_conv) by (vm_compute; reflexivity).
  split; [exact H |]. exact (convert_click w_photo w_conv H).
Defined.

Definition png_ok_result : TransformResponse :=
  mkTransformResponse (mkBlob [Byte.x89; Byte.x50; Byte.x4e; Byte.x47] "image/png")
    "converted.png".

Lemma convert_settled_ok_witness :
  exists w', step w_conv (EvConvertSettled 1 png_ok) = Some w' /\
    status (app w') = Success /\ convertedBlob (app w') = Some (tr_data png_ok_result) /\
    convertedFilename (app w') = tr_filename png_ok_result /\
    pending w' = delete 1 (pending w_conv) /\ crashed w' = false.
Proof.
  apply (convert_settled_ok w_conv 1 photo Png png_ok png_ok_result);
    vm_compute; reflexivity.
Defined.

Definition server_error_axios : AxiosError :=
  mkAxiosError (Some (mkResponse 500 ∅ (mkBlob (list_byte_of_string "decode failed") "text/plain")))
    "Request failed with status code 500".

Lemma convert_settled_err_witness :
  exists w', step w_conv (EvConvertSettled 1 server_error) = Some w' /\
    status (app w') = Error /\
    errorMessage (app w') = conversion_error_message server_error_axios /\
    convertedBlob (app w') = convertedBlob (app w_conv) /\
    pending w' = delete 1 (pending w_conv).
Proof.
  apply (convert_settled_err w_conv 1 photo Png server_error server_error_axios);
    vm_compute; reflexivity.
Defined.

Lemma reset_clears_witness :
  step w_conv EvClickReset = Some w_reset /\
  selectedFile (app w_reset) = None /\ previewUrl (app w_reset) = None /\
  status (app w_reset) = Idle /\ errorMessage (app w_reset) = JStr "" /\
  convertedBlob (app w_reset) = None /\ fileInput (app w_reset) = Some "" /\
  pending w_reset = pending w_conv /\ crashed w_reset = false.
Proof.
  assert (H : step w_conv EvClickReset = Some w_reset) by (vm_compute; reflexivity).
  split; [exact H |]. exact (reset_clears w_conv w_reset H).
Defined.

Lemma download_saves_witness :
  step w_done EvClickDownload = Some w_saved /\
  exists b, status (app w_done) = Success /\ convertedBlob (app w_done) = Some b /\
    downloads (browser w_saved) =
      (downloads (browser w_done) ++ [(convertedFilename (app w_done), b)])%list /\
    object_urls (browser w_saved) = object_urls (browser w_done) /\
    body (browser w_saved) = body (browser w_done) /\ browser_fresh (browser w_saved).
Proof.
  assert (H : step w_done EvClickDownload = Some w_saved) by (vm_compute; reflexivity).
  assert (F : browser_fresh (browser w_done)) by (vm_compute; split; constructor).
  split; [exact H |]. exact (download_saves w_done w_saved F H).
Defined.

Lemma conversion_error_message_settle_witness :
  axios_settle server_error = AxErr server_error_axios /\
  conversion_error_message server_error_axios =
    JBlob (mkBlob (list_byte_of_string "decode failed") "text/plain").
Proof.
  assert (H : axios_settle server_error = AxErr server_error_axios) by (vm_compute; reflexivity).
  split; [exact H |]. exact (conversion_error_message_settle server_error server_error_axios H).
Defined.

Lemma retry_after_error_witness :
  exists w', step w_neterr EvClickConvert = Some w' /\ status (app w') = Converting.
Proof.
  apply (retry_after_error fileApi_spec w_neterr photo w_neterr_reachable);
    vm_compute; reflexivity.
Defined.
Lemma preview_shows_file_witness :
  exists w' u, step w_photo (EvReadLoaded 0) = Some w' /\
    previewUrl (app w') = Some u /\
    parse_data_url u = Some ("image/jpeg", file_bytes photo) /\
    (forall v p, render (app w') = Some v -> v_panel v = Some p -> pv_preview p = Some u).
Proof.
  apply (preview_shows_file w_photo 0 photo); vm_compute; reflexivity.
Defined.

Lemma sent_requests_wire_witness : reachable w_neterr /\ Forall wire_ok (sent w_neterr).
Proof.
  split; [exact w_neterr_reachable |].
  exact (sent_requests_wire w_neterr w_neterr_reachable).
Defined.

Lemma repick_rejected_ignored_witness :
  step w_ready (EvPick [notes]) = Some w_notes /\ step w_notes (EvPick [notes]) = None.
Proof.
  assert (H : step w_ready (EvPick [notes]) = Some w_notes) by (vm_compute; reflexivity).
  split; [exact H |]. exact (repick_rejected_ignored w_ready notes [] w_notes eq_refl H).
Defined.

Lemma w_photo_reachable : reachable w_photo.
Proof.
  apply (run_reachable initial_world [EvHealthSettled 0 health_ok; EvPick [photo]]);
    [constructor | vm_compute; reflexivity].
Qed.

Lemma conversion_completes_witness :
  exists w', run w_photo [EvClickConvert; EvConvertSettled (List.length (pending w_photo)) png_ok]
    = Some w' /\
    status (app w') = Success /\ convertedBlob (app w') = Some (tr_data png_ok_result) /\
    convertedFilename (app w') = tr_filename png_ok_result /\ crashed w' = false.
Proof.
  apply (conversion_completes fileApi_spec w_photo photo); try exact w_photo_reachable;
    vm_compute; first [reflexivity | discriminate].
Defined.

Lemma validation_error_not_rendered_witness :
  step w_ready (EvPick [notes]) = Some w_notes /\
  crashed w_notes = false /\ status (app w_notes) = Error /\
  exists v, render (app w_notes) = Some v /\ v_panel v = None /\ v_upload_area v <> None.
Proof.
  assert (H : step w_ready (EvPick [notes]) = Some w_notes) by (vm_compute; reflexivity).
  split; [exact H |]. exact (validation_error_not_rendered w_ready notes [] w_notes eq_refl H).
Defined.

Definition w_jpg : World := Eval vm_compute in
  after [EvHealthSettled 0 health_ok; EvPick [photo]; EvClickConvert;
         EvConvertSettled 1 png_ok; EvClickFormat Jpg].
Definition v_jpg : View := Eval vm_compute in default (mkView None None None) (render (app w_jpg)).
Definition p_jpg : PanelView := Eval vm_compute in
  default (mkPanel None "" "" "" Png false false false None false None) (v_panel v_jpg).

Lemma download_label_mismatch_witness :
  pv_download p_jpg = Some ("Download " +++ to_upper_case (format_string Jpg)) /\
  convertedBlob (app w_jpg) = Some (tr_data png_ok_result) /\
  convertedFilename (app w_jpg) = convertedFilename (app w_done).
Proof.
  apply (download_label_mismatch w_done Jpg (tr_data png_ok_result) w_jpg v_jpg p_jpg);
    vm_compute; reflexivity.
Defined.

Definition server_error_response : Response :=
  mkResponse 500 ∅ (mkBlob (list_byte_of_string "decode failed") "text/plain").

Lemma server_error_crashes_witness :
  exists w', step w_conv (EvConvertSettled 1 (NetResponse server_error_response)) = Some w' /\
    status (app w') = Error /\ errorMessage (app w') = JBlob (resp_body server_error_response) /\
    crashed w' = true.
Proof.
  apply (server_error_crashes w_conv 1 photo Png server_error_response);
    vm_compute; first [reflexivity | discriminate].
Defined.

End Witnesses.
