(* ===== verification/Spec.v ===== *)
(** * The abstract conversion session of the specification (section 4)

    What the specification promises of the controller, independent of
    React: the selected source, the conversion status, the converted
    result (present only on success), the backend health and the target
    format, with the transitions of section 4 as an inductive step
    relation [abs_step].  [Refinement] relates the controller of
    [Controller] to it. *)

From stdpp Require Import base list strings options.
From Stdlib Require Import String.
From S2P Require Import Prelude JsRuntime Http FileApi Controller.

Open Scope string_scope.
Open Scope ft_scope.

Module AbstractSession.

Record AbsState := mkAbs {
  a_source : option File;
  a_status : ConversionStatus;
  a_result : option (Blob * string);
  a_health : option bool;
  a_target : Format
}.

(** The acceptance policy: the declared media type begins with [image/]. *)
Definition is_image (f : File) : bool := starts_with (file_type f) "image/".

Inductive abs_step : AbsState -> AbsState -> Prop :=
(** an image becomes the selected source; any result is dropped *)
| AbsSelect s f :
    is_image f = true ->
    abs_step s (mkAbs (Some f) Idle None (a_health s) (a_target s))
(** a non-image is refused: error status, the source is left as it is *)
| AbsReject s f :
    is_image f = false ->
    abs_step s (mkAbs (a_source s) Error None (a_health s) (a_target s))
(** convert: only with a source, a healthy backend, and not mid-conversion *)
| AbsConvert s f :
    a_source s = Some f -> a_health s = Some true -> a_status s <> Converting ->
    abs_step s (mkAbs (a_source s) Converting None (a_health s) (a_target s))
(** the remote call resolves with a payload and a non-empty filename *)
| AbsSucceed s b n :
    a_status s = Converting -> n <> "" ->
    abs_step s (mkAbs (a_source s) Success (Some (b, n)) (a_health s) (a_target s))
(** the remote call rejects *)
| AbsFail s :
    a_status s = Converting ->
    abs_step s (mkAbs (a_source s) Error None (a_health s) (a_target s))
(** upload another *)
| AbsReset s :
    abs_step s (mkAbs None Idle None (a_health s) (a_target s))
(** the health check resolves *)
| AbsHealth s h :
    abs_step s (mkAbs (a_source s) (a_status s) (a_result s) (Some h) (a_target s))
(** the target format changes, except mid-conversion *)
| AbsTarget s fmt :
    a_status s <> Converting ->
    abs_step s (mkAbs (a_source s) (a_status s) (a_result s) (a_health s) fmt).

(** The invariant of section 3: a result exactly on success. *)
Definition abs_wf (s : AbsState) : Prop :=
  a_result s <> None <-> a_status s = Success.

Lemma abs_step_wf s s' : abs_wf s -> abs_step s s' -> abs_wf s'.
Proof.
  unfold abs_wf. intros Hwf Hs; inversion Hs; subst; simpl; try done.
  all: split; congruence.
Qed.
End AbstractSession.
